(** * benchmarks_ci: the orchestration script of the .NET micro benchmarks

    A shallow embedding of [scripts/benchmarks_ci.py] and the properties of
    its orchestration core: argument validation, tool acquisition and the
    sequencing install, build, run, report over the requested frameworks.

    The script is sequential Python that calls into the modules [dotnet],
    [micro_benchmarks], [benchview] and [performance.*].  Those calls are
    kept as calls: the script is a computation in a state and exception
    monad whose state is the process environment ([os.environ]) together
    with the record of every call made so far, and the behaviour of the
    called modules is a parameter ([External]).

    The check of [platform.linux_distribution] that the module runs when
    it is imported comes before any of the functions and is left out. *)

From Stdlib Require Import ZArith Ascii String List Lia.
From stdpp Require Import base option list gmap strings.

Open Scope Z_scope.

(** ** Python values and exceptions *)

(** The result of a call whose value the script never inspects. *)
Inductive Value : Type :=
  | VNone
  | VBool (b : bool)
  | VInt (z : Z)
  | VStr (s : string).

(** Exceptions: the two the script raises itself, [ValueError] from
    [datetime.strptime], and whatever a called module raises. *)
Inductive Exn : Type :=
  | RuntimeError (msg : string)
  | ArgumentTypeError (msg : string)
  | ValueError (msg : string)
  | SystemExit (code : Z)
  | ModuleError (kind msg : string).

(** A Python call either returns or raises. *)
Inductive Outcome (A : Type) : Type :=
  | Return (a : A)
  | Raise (e : Exn).
Arguments Return {A} a.
Arguments Raise {A} e.

Definition returned {A} (o : Outcome A) : bool :=
  match o with Return _ => true | Raise _ => false end.

(** ** The parsed command line *)

(** [argparse.Namespace] as [__main] reads it: the options declared by
    [add_arguments] of this script, and those declared by the
    [add_arguments] of [dotnet], [micro_benchmarks] and [benchview] that
    [__main] and [init_tools] use. *)
Record Namespace : Type := {
  (* dotnet.add_arguments *)
  architecture : string;
  dotnet_version : option string;
  (* micro_benchmarks.add_arguments *)
  frameworks : list string;
  configuration : string;
  incremental : string;
  csprojfile : string;
  bin_directory : string;
  (* add_arguments of this script *)
  cli_source_info : string;
  cli_branch : option string;
  cli_commit_sha : option string;
  cli_repository : option string;
  cli_source_timestamp : option string;
  quiet : bool;
  build_only : bool;
  run_only : bool;
  (* benchview.add_arguments *)
  generate_benchview_data : bool;
  benchview_submission_name : option string
}.

(** Python truthiness of an optional string: [None] and the empty string
    are false. *)
Definition truthy (o : option string) : bool :=
  match o with
  | None => false
  | Some EmptyString => false
  | Some (String _ _) => true
  end.

(** The object [dotnet.CSharpProject(project=..., bin_directory=...)]. *)
Record CSharpProject : Type := {
  csproj_project : string;
  csproj_bin_directory : string
}.

(** ** Calls and the world *)

(** One constructor for each call that leaves the script, with the
    arguments the script passes, and for each write of the process
    environment. *)
Inductive Event : Type :=
  | EValidateSupportedRuntime
  | ESetupLoggers (verbose : bool)
  | ELogInfo (msg : string)
  | EDotnetInstall (architecture : string) (channels : list string)
      (version : option string) (verbose : bool)
  | EBenchviewInstall
  | EEnvironSet (key value : string)
  | EDotnetInfo (verbose : bool)
  | ENewCSharpProject (project bin_directory : string)
  | EBuild (csproj : CSharpProject) (configuration : string)
      (target_framework_monikers : list string) (incremental : string)
      (verbose : bool)
  | ERun (csproj : CSharpProject) (configuration framework : string)
      (verbose : bool) (args : Namespace)
  | ERunScripts (args : Namespace) (verbose : bool) (csproj : CSharpProject).

(** [os.environ]. *)
Abbreviation Environ := (gmap string string).

(** The world: every call so far, each with the environment it was made
    in (the environment a child process of that call inherits), and the
    current environment. *)
Record World : Type := {
  trace : list (Event * Environ);
  environ : Environ
}.

Definition calls (w : World) : list Event := (trace w).*1.

Definition start (env : Environ) : World := {| trace := []; environ := env |}.

(** ** The monad *)

Definition M (A : Type) : Type := World → Outcome A * World.

#[global] Instance M_ret : MRet M := λ A a w, (Return a, w).

#[global] Instance M_bind : MBind M := λ A B k m w,
  match m w with
  | (Return a, w') => k a w'
  | (Raise e, w') => (Raise e, w')
  end.

Definition raise {A} (e : Exn) : M A := λ w, (Raise e, w).

(** A pure call that may raise. *)
Definition lift {A} (o : Outcome A) : M A := λ w, (o, w).

(** A called module sees the world and answers with an outcome and the
    environment it leaves behind; it cannot rewrite the record of calls. *)
Definition Collab (A : Type) : Type := World → Outcome A * Environ.

Definition call {A} (e : Event) (c : Collab A) : M A := λ w,
  let '(o, env') := c w in
  (o, {| trace := trace w ++ [(e, environ w)]; environ := env' |}).

(** [os.environ[key] = value]. *)
Definition environ_set (key value : string) : M unit := λ w,
  (Return tt,
   {| trace := trace w ++ [(EEnvironSet key value, environ w)];
      environ := <[key := value]> (environ w) |}).

(** [getLogger().info(msg)]. *)
Definition logger_info (msg : string) : M unit := λ w,
  (Return tt,
   {| trace := trace w ++ [(ELogInfo msg, environ w)];
      environ := environ w |}).

(** [for x in xs: body(x)]. *)
Fixpoint for_each {A B} (xs : list A) (body : A → M B) : M unit :=
  match xs with
  | [] => mret tt
  | x :: xs' => body x ;; for_each xs' body
  end.

(** [[f(x) for x in xs]] for a pure [f] that may raise. *)
Fixpoint comprehension {A B} (f : A → Outcome B) (xs : list A)
  : Outcome (list B) :=
  match xs with
  | [] => Return []
  | x :: xs' =>
      match f x with
      | Raise e => Raise e
      | Return y =>
          match comprehension f xs' with
          | Raise e => Raise e
          | Return ys => Return (y :: ys)
          end
      end
  end.

(** ** The called modules *)

(** What the script imports and calls.  [parse_args] is argparse run on
    the parser that [add_arguments] builds; it and the two static methods
    of [micro_benchmarks.FrameworkAction] are functions of their argument
    alone.  The others act on the world. *)
Record External : Type := {
  validate_supported_runtime : Collab Value;
  parse_args : list string → Outcome Namespace;
  setup_loggers : bool → Collab Value;
  get_target_framework_monikers : list string → Outcome (list string);
  get_channel : string → Outcome string;
  dotnet_install : string → list string → option string → bool → Collab Value;
  benchview_install : Collab Value;
  dotnet_info : bool → Collab Value;
  dotnet_CSharpProject : string → string → Collab CSharpProject;
  micro_benchmarks_build :
    CSharpProject → string → list string → string → bool → Collab Value;
  micro_benchmarks_run :
    CSharpProject → string → string → bool → Namespace → Collab Value;
  benchview_run_scripts : Namespace → bool → CSharpProject → Collab Value
}.

(** ** String helpers *)

Definition dquote : string := String "034"%char EmptyString.
Definition newline : string := String "010"%char EmptyString.

(** [sep.join(xs)]. *)
Definition join (sep : string) (xs : list string) : string :=
  String.concat sep xs.

(** [needle in hay]. *)
Fixpoint contains (needle hay : string) : bool :=
  String.prefix needle hay ||
  match hay with
  | EmptyString => false
  | String _ hay' => contains needle hay'
  end.

(** ** [datetime.strptime]

    The standard library's [_strptime], for the directives the script's
    format uses.  A format is compiled to a regular expression: a
    directive becomes a group of alternatives tried in order, any other
    character matches itself, and the expression is compiled with
    [IGNORECASE].  The data must be matched by the expression and matched
    to its end, and the fields must make a date and time that [datetime]
    accepts.  Characters are ASCII: [\d] is [0-9] here, where Python's
    also takes the other Unicode decimal digits, so a timestamp written
    with such a digit is outside the model. *)

Inductive CharClass : Type :=
  | Digit                      (* \d *)
  | Range (lo hi : ascii)      (* [lo-hi] *)
  | Lit (c : ascii).

Definition code (c : ascii) : N := N_of_ascii c.

Definition lower (c : ascii) : N :=
  let n := code c in
  if ((65 <=? n) && (n <=? 90))%N then (n + 32)%N else n.

Definition is_digit (c : ascii) : bool :=
  ((48 <=? code c) && (code c <=? 57))%N.

Definition in_class (k : CharClass) (c : ascii) : bool :=
  match k with
  | Digit => is_digit c
  | Range lo hi => ((code lo <=? code c) && (code c <=? code hi))%N
  | Lit l => (lower l =? lower c)%N
  end.

(** The groups of [TimeRE.__init__], alternatives in the order written
    there. *)
Definition directive_regex (d : ascii) : option (list (list CharClass)) :=
  let r := Range in
  if Ascii.eqb d "Y"%char then Some [[Digit; Digit; Digit; Digit]]
  else if Ascii.eqb d "m"%char then
    Some [[Lit "1"%char; r "0"%char "2"%char]; [Lit "0"%char; r "1"%char "9"%char]; [r "1"%char "9"%char]]
  else if Ascii.eqb d "d"%char then
    Some [[Lit "3"%char; r "0"%char "1"%char]; [r "1"%char "2"%char; Digit]; [Lit "0"%char; r "1"%char "9"%char];
          [r "1"%char "9"%char]; [Lit " "%char; r "1"%char "9"%char]]
  else if Ascii.eqb d "H"%char then
    Some [[Lit "2"%char; r "0"%char "3"%char]; [r "0"%char "1"%char; Digit]; [Digit]]
  else if Ascii.eqb d "M"%char then Some [[r "0"%char "5"%char; Digit]; [Digit]]
  else if Ascii.eqb d "S"%char then
    Some [[Lit "6"%char; r "0"%char "1"%char]; [r "0"%char "5"%char; Digit]; [Digit]]
  else None.

Inductive FormatItem : Type :=
  | Directive (d : ascii)
  | Literal (c : ascii).

Fixpoint format_items (format : list ascii) : list FormatItem :=
  match format with
  | [] => []
  | c :: rest =>
      if Ascii.eqb c "%"%char then
        match rest with
        | d :: rest' =>
            (if Ascii.eqb d "%"%char then Literal d else Directive d)
              :: format_items rest'
        | [] => [Literal c]
        end
      else Literal c :: format_items rest
  end.

(** One alternative against the head of the data: the text it takes and
    what is left. *)
Fixpoint match_classes (ks : list CharClass) (s : list ascii)
  : option (list ascii * list ascii) :=
  match ks with
  | [] => Some ([], s)
  | k :: ks' =>
      match s with
      | [] => None
      | c :: s' =>
          if in_class k c then
            match match_classes ks' s' with
            | Some (txt, rest) => Some (c :: txt, rest)
            | None => None
            end
          else None
      end
  end.

(** Every way the items match a prefix of the data, in the order a
    backtracking matcher finds them: the fields found and the rest. *)
Fixpoint match_items (items : list FormatItem) (s : list ascii)
  : list (list (ascii * list ascii) * list ascii) :=
  match items with
  | [] => [([], s)]
  | Literal l :: items' =>
      match s with
      | c :: s' => if in_class (Lit l) c then match_items items' s' else []
      | [] => []
      end
  | Directive d :: items' =>
      match directive_regex d with
      | None => []
      | Some alts =>
          '(txt, rest) ← omap (λ ks, match_classes ks s) alts;
          '(found, rest') ← match_items items' rest;
          [((d, txt) :: found, rest')]
      end
  end.

(** [int(text)] for the text of a group: digits, after an optional
    blank. *)
Definition int_of_text (txt : list ascii) : Z :=
  fold_left (λ acc c, if is_digit c then 10 * acc + (Z.of_N (code c) - 48) else acc)
    txt 0.

Fixpoint field (d : ascii) (found : list (ascii * list ascii)) (default : Z) : Z :=
  match found with
  | [] => default
  | (d', txt) :: found' =>
      if Ascii.eqb d d' then int_of_text txt else field d found' default
  end.

Record datetime : Type := {
  year : Z; month : Z; day : Z; hour : Z; minute : Z; second : Z
}.

Definition is_leap (y : Z) : bool :=
  (y mod 4 =? 0) && (negb (y mod 100 =? 0) || (y mod 400 =? 0)).

Definition days_in_month (y m : Z) : Z :=
  if m =? 2 then (if is_leap y then 29 else 28)
  else if (m =? 4) || (m =? 6) || (m =? 9) || (m =? 11) then 30
  else 31.

(** The range checks of the [date] and [datetime] constructors. *)
Definition valid_datetime (t : datetime) : bool :=
  (1 <=? year t) && (year t <=? 9999) &&
  (1 <=? month t) && (month t <=? 12) &&
  (1 <=? day t) && (day t <=? days_in_month (year t) (month t)) &&
  (0 <=? hour t) && (hour t <=? 23) &&
  (0 <=? minute t) && (minute t <=? 59) &&
  (0 <=? second t) && (second t <=? 59).

Definition all_known (items : list FormatItem) : bool :=
  forallb (λ i, match i with
                | Directive d => bool_decide (is_Some (directive_regex d))
                | Literal _ => true
                end) items.

(** [datetime.strptime(data_string, format)]; every failure is a
    [ValueError]. *)
Definition strptime (data_string format : string) : Outcome datetime :=
  let items := format_items (list_ascii_of_string format) in
  if negb (all_known items) then Raise (ValueError "bad directive in format")
  else
    match match_items items (list_ascii_of_string data_string) with
    | [] => Raise (ValueError "time data does not match format")
    | (found, rest) :: _ =>
        match rest with
        | _ :: _ => Raise (ValueError "unconverted data remains")
        | [] =>
            let t := {| year := field "Y"%char found 1900;
                        month := field "m"%char found 1;
                        day := field "d"%char found 1;
                        hour := field "H"%char found 0;
                        minute := field "M"%char found 0;
                        second := field "S"%char found 0 |} in
            if valid_datetime t then Return t
            else Raise (ValueError "value out of range")
        end
    end.

(** ** The script *)

(** The converter of [--cli-source-timestamp], local to [add_arguments]. *)
Definition __is_valid_datetime (dt : string) : Outcome string :=
  match strptime dt "%Y-%m-%dT%H:%M:%SZ" with
  | Return _ => Return dt
  | Raise (ValueError _) =>
      Raise (ArgumentTypeError
               ("Datetime " +:+ dquote +:+ dt +:+ dquote +:+ " is in the wrong format."))
  | Raise e => Raise e
  end.

(** How argparse words an [ArgumentTypeError] of a converter: the text of
    [ArgumentError] for the option. *)
Definition argument_error (option_string msg : string) : string :=
  "argument " +:+ option_string +:+ ": " +:+ msg.

Definition PYTHON_SCRIPT_TARGET_FRAMEWORKS : string :=
  "PYTHON_SCRIPT_TARGET_FRAMEWORKS".

Definition submission_name_required : string :=
  "In order to generate BenchView data," +:+ newline +:+
  "            `--benchview-submission-name` must be provided.".

Section Script.

Variable ext : External.

Definition init_tools (architecture : string) (version : option string)
    (target_framework_monikers : list string) (verbose : bool) : M unit :=
  logger_info "Installing tools." ;;
  channels ← lift (comprehension (get_channel ext) target_framework_monikers);
  call (EDotnetInstall architecture channels version verbose)
       (dotnet_install ext architecture channels version verbose) ;;
  call EBenchviewInstall (benchview_install ext) ;;
  mret tt.

Definition __process_arguments (args : list string) : M Namespace :=
  lift (parse_args ext args).

Definition __main (args : list string) : M unit :=
  call EValidateSupportedRuntime (validate_supported_runtime ext) ;;
  args ← __process_arguments args;
  let verbose := negb (quiet args) in
  call (ESetupLoggers verbose) (setup_loggers ext verbose) ;;
  if generate_benchview_data args && negb (truthy (benchview_submission_name args))
  then raise (RuntimeError submission_name_required)
  else
    target_framework_monikers ←
      lift (get_target_framework_monikers ext (frameworks args));
    init_tools (architecture args) (dotnet_version args)
      target_framework_monikers verbose ;;
    environ_set PYTHON_SCRIPT_TARGET_FRAMEWORKS
      (join ";" target_framework_monikers) ;;
    call (EDotnetInfo verbose) (dotnet_info ext verbose) ;;
    BENCHMARKS_CSPROJ ←
      call (ENewCSharpProject (csprojfile args) (bin_directory args))
           (dotnet_CSharpProject ext (csprojfile args) (bin_directory args));
    (if negb (run_only args) then
       call (EBuild BENCHMARKS_CSPROJ (configuration args)
               target_framework_monikers (incremental args) verbose)
            (micro_benchmarks_build ext BENCHMARKS_CSPROJ (configuration args)
               target_framework_monikers (incremental args) verbose) ;;
       mret tt
     else mret tt) ;;
    if negb (build_only args) then
      for_each (frameworks args) (λ framework,
        call (ERun BENCHMARKS_CSPROJ (configuration args) framework verbose args)
             (micro_benchmarks_run ext BENCHMARKS_CSPROJ (configuration args)
                framework verbose args)) ;;
      call (ERunScripts args verbose BENCHMARKS_CSPROJ)
           (benchview_run_scripts ext args verbose BENCHMARKS_CSPROJ) ;;
      mret tt
    else mret tt.

End Script.

(** ** Reading the record of calls *)

Definition is_dotnet_install (e : Event) : bool :=
  match e with EDotnetInstall _ _ _ _ => true | _ => false end.
Definition is_benchview_install (e : Event) : bool :=
  match e with EBenchviewInstall => true | _ => false end.
Definition is_install (e : Event) : bool :=
  is_dotnet_install e || is_benchview_install e.
Definition is_environ_set (e : Event) : bool :=
  match e with EEnvironSet _ _ => true | _ => false end.
Definition is_build (e : Event) : bool :=
  match e with EBuild _ _ _ _ _ => true | _ => false end.
Definition is_run (e : Event) : bool :=
  match e with ERun _ _ _ _ _ => true | _ => false end.
Definition is_report (e : Event) : bool :=
  match e with ERunScripts _ _ _ => true | _ => false end.

(** The calls of [w] that [p] selects, in order. *)
Definition calls_of (p : Event → bool) (w : World) : list Event :=
  List.filter p (calls w).

Definition count (p : Event → bool) (w : World) : nat :=
  length (calls_of p w).

(** ** A laboratory double of the called modules

    Every call returns and leaves the environment alone; the command line
    parses to [ns]; frameworks are their own monikers; [channel_of] and
    [run_result] are the answers of [get_channel] and of a run. *)
Definition quietly {A} (a : A) : Collab A := λ w, (Return a, environ w).

Definition lab (ns : Namespace) (channel_of : string → Outcome string)
    (run_result : string → Outcome Value) : External := {|
  validate_supported_runtime := quietly VNone;
  parse_args := λ _, Return ns;
  setup_loggers := λ _, quietly VNone;
  get_target_framework_monikers := λ fs, Return fs;
  get_channel := channel_of;
  dotnet_install := λ _ _ _ _, quietly VNone;
  benchview_install := quietly VNone;
  dotnet_info := λ _, quietly VNone;
  dotnet_CSharpProject := λ p b,
    quietly {| csproj_project := p; csproj_bin_directory := b |};
  micro_benchmarks_build := λ _ _ _ _ _, quietly VNone;
  micro_benchmarks_run := λ _ _ framework _ _ w,
    (run_result framework, environ w);
  benchview_run_scripts := λ _ _ _, quietly VNone
|}.

(** The channel of a moniker, for the two monikers of the examples. *)
Definition lab_channel (target_framework_moniker : string) : Outcome string :=
  if String.eqb target_framework_moniker "net6.0" then Return "6.0"
  else if String.eqb target_framework_moniker "net7.0" then Return "7.0"
  else Raise (ModuleError "Exception" "Unknown target framework moniker.").

Definition lab_args (fs : list string) (build run generate : bool)
    (name : option string) : Namespace := {|
  architecture := "x64";
  dotnet_version := None;
  frameworks := fs;
  configuration := "Release";
  incremental := "yes";
  csprojfile := "MicroBenchmarks.csproj";
  bin_directory := "artifacts";
  cli_source_info := "init-tools";
  cli_branch := None;
  cli_commit_sha := None;
  cli_repository := None;
  cli_source_timestamp := None;
  quiet := false;
  build_only := build;
  run_only := run;
  generate_benchview_data := generate;
  benchview_submission_name := name
|}.

(** The claim of the specification about the provisioning channels reads
    the list as de-duplicated, first occurrences kept; this is that
    reading, to compare with what [init_tools] passes. *)
Fixpoint dedup_from (seen xs : list string) : list string :=
  match xs with
  | [] => []
  | x :: xs' =>
      if existsb (String.eqb x) seen then dedup_from seen xs'
      else x :: dedup_from (x :: seen) xs'
  end.

Definition order_preserving_dedup (xs : list string) : list string :=
  dedup_from [] xs.

(** ** Notions for the statements *)

(** A collaborator that returns from every world. *)
Definition succeeds {A} (c : Collab A) : Prop :=
  ∀ w, ∃ a env', c w = (Return a, env').

(** [emits P m]: whatever the called modules do, [m] only adds calls to
    the record, and every call it adds satisfies [P]. *)
Definition emits {A} (P : Event → Prop) (m : M A) : Prop :=
  ∀ w, ∃ new, trace (m w).2 = trace w ++ new ∧ Forall P new.*1.

(** What the specification asks of the error text: that it names the
    option and the expected format. *)
Definition names_field_and_format (msg : string) : bool :=
  (contains "cli-source-timestamp" msg || contains "cli_source_timestamp" msg)
  && contains "%Y-%m-%dT%H:%M:%SZ" msg.

(** The cross-field check of [__main]: BenchView data is asked for and
    no submission name is given. *)
Definition missing_submission_name (args : Namespace) : bool :=
  generate_benchview_data args && negb (truthy (benchview_submission_name args)).

(** The called modules let the script get as far as the build: every
    call before the run phase returns. *)
Record prepares (ext : External) : Prop := {
  prep_runtime : succeeds (validate_supported_runtime ext);
  prep_loggers : ∀ v, succeeds (setup_loggers ext v);
  prep_dotnet : ∀ a chs v b, succeeds (dotnet_install ext a chs v b);
  prep_benchview : succeeds (benchview_install ext);
  prep_info : ∀ v, succeeds (dotnet_info ext v);
  prep_project : ∀ p b, succeeds (dotnet_CSharpProject ext p b);
  prep_build : ∀ proj conf tfms incr v,
    succeeds (micro_benchmarks_build ext proj conf tfms incr v)
}.

(** Every call returns. *)
Record cooperative (ext : External) : Prop := {
  coop_prepares : prepares ext;
  coop_run : ∀ proj conf f v args,
    succeeds (micro_benchmarks_run ext proj conf f v args);
  coop_report : ∀ args v proj, succeeds (benchview_run_scripts ext args v proj)
}.

(** The last statement of [__main], the run phase, on its own. *)
Definition run_phase (ext : External) (args : Namespace)
    (BENCHMARKS_CSPROJ : CSharpProject) : M unit :=
  let verbose := negb (quiet args) in
  if negb (build_only args) then
    for_each (frameworks args) (λ framework,
      call (ERun BENCHMARKS_CSPROJ (configuration args) framework verbose args)
           (micro_benchmarks_run ext BENCHMARKS_CSPROJ (configuration args)
              framework verbose args)) ;;
    call (ERunScripts args verbose BENCHMARKS_CSPROJ)
         (benchview_run_scripts ext args verbose BENCHMARKS_CSPROJ) ;;
    mret tt
  else mret tt.

(** The calls of an invocation up to the project object. *)
Definition preparation (args : Namespace) (tfms chs : list string) : list Event :=
  let verbose := negb (quiet args) in
  [EValidateSupportedRuntime; ESetupLoggers verbose;
   ELogInfo "Installing tools.";
   EDotnetInstall (architecture args) chs (dotnet_version args) verbose;
   EBenchviewInstall;
   EEnvironSet PYTHON_SCRIPT_TARGET_FRAMEWORKS (join ";" tfms);
   EDotnetInfo verbose;
   ENewCSharpProject (csprojfile args) (bin_directory args)].

(** What [__main] may call, by the parsed command line: the runtime check
    and the logger setup always; everything else only past the cross-field
    check; the build unless run-only; the runs and the report unless
    build-only. *)
Definition may_call (args : Namespace) (e : Event) : Prop :=
  match e with
  | EValidateSupportedRuntime | ESetupLoggers _ => True
  | EBuild _ _ _ _ _ =>
      missing_submission_name args = false ∧ run_only args = false
  | ERun _ _ _ _ _ | ERunScripts _ _ _ =>
      missing_submission_name args = false ∧ build_only args = false
  | _ => missing_submission_name args = false
  end.

(** A run that reports failure in its exit status, and one that raises. *)
Definition net60_fails (framework : string) : Outcome Value :=
  if String.eqb framework "net6.0" then Return (VInt 1) else Return VNone.

Definition net60_raises (framework : string) : Outcome Value :=
  if String.eqb framework "net6.0"
  then Raise (ModuleError "CalledProcessError" "dotnet run")
  else Return VNone.

(** The reading of the specification for both flags: the invocation ends
    in an error and no install was made. *)
Definition rejected_before_provisioning (r : Outcome unit * World) : Prop :=
  (∃ e, r.1 = Raise e) ∧ count is_install r.2 = 0%nat.

(** The build, when the mode has one, followed by the run phase: what
    [__main] does once it holds the project object. *)
Definition build_and_run (ext : External) (args : Namespace)
    (target_framework_monikers : list string)
    (BENCHMARKS_CSPROJ : CSharpProject) : M unit :=
  let verbose := negb (quiet args) in
  (if negb (run_only args) then
     call (EBuild BENCHMARKS_CSPROJ (configuration args)
             target_framework_monikers (incremental args) verbose)
          (micro_benchmarks_build ext BENCHMARKS_CSPROJ (configuration args)
             target_framework_monikers (incremental args) verbose) ;;
     mret tt
   else mret tt) ;;
  run_phase ext args BENCHMARKS_CSPROJ.

(** A call that is neither a build nor a write of the environment. *)
Definition quiet_call (e : Event) : Prop :=
  is_build e = false ∧ is_environ_set e = false.

(** Timestamps written out the canonical way: [YYYY-MM-DDTHH:MM:SSZ], every
    field zero-padded. *)
Definition digit (n : Z) : ascii := ascii_of_N (Z.to_N (48 + n)).
Definition two_digits (n : Z) : list ascii := [digit (n / 10); digit (n mod 10)].
Definition four_digits (n : Z) : list ascii :=
  [digit (n / 1000); digit (n / 100 mod 10); digit (n / 10 mod 10); digit (n mod 10)].

Definition rfc3339_utc (t : datetime) : string :=
  string_of_list_ascii
    (four_digits (year t) ++ "-"%char :: two_digits (month t)
     ++ "-"%char :: two_digits (day t) ++ "T"%char :: two_digits (hour t)
     ++ ":"%char :: two_digits (minute t) ++ ":"%char :: two_digits (second t)
     ++ ["Z"%char]).

(** The [Directive] case of [match_items], with the alternatives as an
    argument. *)
Definition try_alternatives (d : ascii) (alts : list (list CharClass))
    (items : list FormatItem) (s : list ascii)
  : list (list (ascii * list ascii) * list ascii) :=
  '(txt, rest) ← omap (λ ks, match_classes ks s) alts;
  '(found, rest') ← match_items items rest;
  [((d, txt) :: found, rest')].

(** ** Notions for the further properties *)

(** The calls of a whole invocation, in the order of the script. *)
Definition script (args : Namespace) (tfms chs : list string)
    (proj : CSharpProject) : list Event :=
  let v := negb (quiet args) in
  preparation args tfms chs
  ++ (if run_only args then []
      else [EBuild proj (configuration args) tfms (incremental args) v])
  ++ (if build_only args then []
      else map (λ f, ERun proj (configuration args) f v args) (frameworks args)
           ++ [ERunScripts args v proj]).

(** [follows m F]: from any world, the calls [m] adds are an initial
    segment of [F proj] for some project object, and all of it when [m]
    returns. *)
Definition follows {A} (m : M A) (F : CSharpProject → list Event) : Prop :=
  ∀ w, ∃ proj new,
    trace (m w).2 = trace w ++ new ∧
    new.*1 `prefix_of` F proj ∧
    (returned (m w).1 = true → new.*1 = F proj).

Definition no_project : CSharpProject :=
  {| csproj_project := EmptyString; csproj_bin_directory := EmptyString |}.

(** Every call up to the project object returns. *)
Record provisions (ext : External) : Prop := {
  prov_runtime : succeeds (validate_supported_runtime ext);
  prov_loggers : ∀ v, succeeds (setup_loggers ext v);
  prov_dotnet : ∀ a chs v b, succeeds (dotnet_install ext a chs v b);
  prov_benchview : succeeds (benchview_install ext);
  prov_info : ∀ v, succeeds (dotnet_info ext v);
  prov_project : ∀ p b, succeeds (dotnet_CSharpProject ext p b)
}.

(** A build, a run or a report. *)
Definition is_phase (e : Event) : bool := is_build e || is_run e || is_report e.

(** A collaborator that leaves the environment as it finds it. *)
Definition neutral {A} (c : Collab A) : Prop := ∀ w, (c w).2 = environ w.

(** Every called module leaves the environment as it finds it. *)
Record leaves_environ (ext : External) : Prop := {
  neutral_runtime : neutral (validate_supported_runtime ext);
  neutral_loggers : ∀ v, neutral (setup_loggers ext v);
  neutral_dotnet : ∀ a chs v b, neutral (dotnet_install ext a chs v b);
  neutral_benchview : neutral (benchview_install ext);
  neutral_info : ∀ v, neutral (dotnet_info ext v);
  neutral_project : ∀ p b, neutral (dotnet_CSharpProject ext p b);
  neutral_build : ∀ proj conf tfms incr v,
    neutral (micro_benchmarks_build ext proj conf tfms incr v);
  neutral_run : ∀ proj conf f v args,
    neutral (micro_benchmarks_run ext proj conf f v args);
  neutral_report : ∀ args v proj, neutral (benchview_run_scripts ext args v proj)
}.

(** [m] ends in the environment it started in. *)
Definition keeps_environ {A} (m : M A) : Prop :=
  ∀ w, environ (m w).2 = environ w.

(** The string holds no semicolon. *)
Definition no_semicolon (s : string) : Prop := contains ";" s = false.

(** The fields can be written with four and two digits. *)
Definition printable (t : datetime) : Prop :=
  0 ≤ year t ≤ 9999 ∧ 0 ≤ month t ≤ 99 ∧ 0 ≤ day t ≤ 99 ∧
  0 ≤ hour t ≤ 99 ∧ 0 ≤ minute t ≤ 99 ∧ 0 ≤ second t ≤ 99.

(** A double in which one call raises and the others return. *)
Inductive Fault : Type :=
  | BadRuntime | BadCommandLine | BadFramework
  | BadDotnetInstall | BadBenchviewInstall | BadBuild | BadReport.

Definition failing {A} (e : Exn) : Collab A := λ w, (Raise e, environ w).

Definition faulty_lab (ns : Namespace) (fault : Fault) (e : Exn) : External := {|
  validate_supported_runtime :=
    match fault with BadRuntime => failing e | _ => quietly VNone end;
  parse_args := λ _,
    match fault with BadCommandLine => Raise e | _ => Return ns end;
  setup_loggers := λ _, quietly VNone;
  get_target_framework_monikers := λ fs,
    match fault with BadFramework => Raise e | _ => Return fs end;
  get_channel := lab_channel;
  dotnet_install := λ _ _ _ _,
    match fault with BadDotnetInstall => failing e | _ => quietly VNone end;
  benchview_install :=
    match fault with BadBenchviewInstall => failing e | _ => quietly VNone end;
  dotnet_info := λ _, quietly VNone;
  dotnet_CSharpProject := λ p b,
    quietly {| csproj_project := p; csproj_bin_directory := b |};
  micro_benchmarks_build := λ _ _ _ _ _,
    match fault with BadBuild => failing e | _ => quietly VNone end;
  micro_benchmarks_run := λ _ _ _ _ _, quietly VNone;
  benchview_run_scripts := λ _ _ _,
    match fault with BadReport => failing e | _ => quietly VNone end
|}.

(** The called modules with the values that the runs return rewritten by
    [g], framework by framework; a run that raises still raises. *)
Definition with_run_values (g : string → Value → Value) (ext : External)
  : External := {|
  validate_supported_runtime := validate_supported_runtime ext;
  parse_args := parse_args ext;
  setup_loggers := setup_loggers ext;
  get_target_framework_monikers := get_target_framework_monikers ext;
  get_channel := get_channel ext;
  dotnet_install := dotnet_install ext;
  benchview_install := benchview_install ext;
  dotnet_info := dotnet_info ext;
  dotnet_CSharpProject := dotnet_CSharpProject ext;
  micro_benchmarks_build := micro_benchmarks_build ext;
  micro_benchmarks_run := λ proj conf framework v args w,
    let '(o, env') := micro_benchmarks_run ext proj conf framework v args w in
    (match o with Return x => Return (g framework x) | Raise e => Raise e end,
     env');
  benchview_run_scripts := benchview_run_scripts ext
|}.

(** An outcome with the returned value forgotten. *)
Definition forget {A} (r : Outcome A * World) : Outcome unit * World :=
  (match r.1 with Return _ => Return tt | Raise e => Raise e end, r.2).

(** ** Facts about the monad *)

Lemma bind_Return {A B} (m : M A) (k : A → M B) w a w' :
  m w = (Return a, w') → (m ≫= k) w = k a w'.
Proof. intros E. unfold mbind, M_bind. by rewrite E. Qed.

Lemma bind_Raise {A B} (m : M A) (k : A → M B) w e w' :
  m w = (Raise e, w') → (m ≫= k) w = (Raise e, w').
Proof. intros E. unfold mbind, M_bind. by rewrite E. Qed.

Lemma calls_app w new env' :
  calls {| trace := trace w ++ new; environ := env' |} = calls w ++ new.*1.
Proof. unfold calls. simpl. by rewrite fmap_app. Qed.

Lemma calls_of_app p (l1 l2 : list Event) :
  List.filter p (l1 ++ l2) = List.filter p l1 ++ List.filter p l2.
Proof. apply List.filter_app. Qed.

Lemma quietly_succeeds {A} (a : A) : succeeds (quietly a).
Proof. intros w. by exists a, (environ w). Qed.

Lemma call_succeeds {A} (e : Event) (c : Collab A) w :
  succeeds c →
  ∃ a env', call e c w
            = (Return a, {| trace := trace w ++ [(e, environ w)];
                            environ := env' |}).
Proof.
  intros Hc. destruct (Hc w) as (a & env' & E).
  exists a, env'. unfold call. by rewrite E.
Qed.

Section Emits.

Context (P : Event → Prop).

Lemma emits_ret {A} (a : A) : emits P (mret a).
Proof. intros w. exists []. by rewrite app_nil_r. Qed.

Lemma emits_raise {A} e : emits P (@raise A e).
Proof. intros w. exists []. by rewrite app_nil_r. Qed.

Lemma emits_call {A} e (c : Collab A) : P e → emits P (call e c).
Proof.
  intros He w. exists [(e, environ w)]. unfold call.
  destruct (c w) as [o env']. simpl. split; [done|]. by constructor.
Qed.

Lemma emits_environ_set k v : P (EEnvironSet k v) → emits P (environ_set k v).
Proof. intros He w. exists [(EEnvironSet k v, environ w)]. split; [done|]. by constructor. Qed.

Lemma emits_logger_info msg : P (ELogInfo msg) → emits P (logger_info msg).
Proof. intros He w. exists [(ELogInfo msg, environ w)]. split; [done|]. by constructor. Qed.

Lemma emits_bind {A B} (m : M A) (k : A → M B) :
  emits P m → (∀ a, emits P (k a)) → emits P (m ≫= k).
Proof.
  intros Hm Hk w. destruct (Hm w) as (new1 & E1 & F1).
  unfold mbind, M_bind. destruct (m w) as [[a|e] w1]; simpl in *.
  - destruct (Hk a w1) as (new2 & E2 & F2).
    exists (new1 ++ new2). rewrite E2, E1, <- app_assoc. split; [done|].
    rewrite fmap_app. by apply Forall_app.
  - by exists new1.
Qed.

Lemma emits_bind_lift {A B} (o : Outcome A) (k : A → M B) :
  (∀ a, o = Return a → emits P (k a)) → emits P (lift o ≫= k).
Proof.
  intros Hk w. unfold mbind, M_bind, lift. destruct o as [a|e].
  - by apply Hk.
  - exists []. by rewrite app_nil_r.
Qed.

Lemma emits_for_each {A B} (xs : list A) (body : A → M B) :
  (∀ x, emits P (body x)) → emits P (for_each xs body).
Proof.
  intros Hb. induction xs as [|x xs IH]; simpl.
  - apply emits_ret.
  - apply emits_bind; [apply Hb | intros _; apply IH].
Qed.

End Emits.

(** From the empty record, what [m] emits is all there is. *)
Lemma emits_none {A} (p : Event → bool) (m : M A) env :
  emits (λ e, p e = false) m → count p (m (start env)).2 = 0%nat.
Proof.
  intros Hm. destruct (Hm (start env)) as (new & E & F).
  unfold count, calls_of, calls. rewrite E. simpl.
  induction F as [|e l He _ IH]; [done|]. simpl. by rewrite He.
Qed.

(** ** The loops *)

Section Loops.

Context {A B : Type} (ev : A → Event) (c : A → Collab B).

(** When every call returns, whatever it returns, the loop goes through
    the whole list in order. *)
Lemma for_each_call_returns (xs : list A) w :
  (∀ x, x ∈ xs → succeeds (c x)) →
  ∃ new env',
    for_each xs (λ x, call (ev x) (c x)) w
    = (Return tt, {| trace := trace w ++ new; environ := env' |})
    ∧ new.*1 = map ev xs.
Proof.
  revert w. induction xs as [|x xs IH]; intros w Hs; simpl.
  - exists [], (environ w). rewrite app_nil_r. by destruct w.
  - destruct (call_succeeds (ev x) (c x) w) as (b & env1 & E).
    { apply Hs. by left. }
    erewrite bind_Return by exact E.
    destruct (IH {| trace := trace w ++ [(ev x, environ w)]; environ := env1 |})
      as (new & env' & E' & Hnew).
    { intros y Hy. apply Hs. by right. }
    exists ((ev x, environ w) :: new), env'. simpl in E'.
    rewrite E', <- app_assoc. split; [done|]. by rewrite fmap_cons, Hnew.
Qed.

(** The first call that raises ends the loop with its exception. *)
Lemma for_each_call_raises (pre post : list A) (x : A) e w :
  (∀ y, y ∈ pre → succeeds (c y)) →
  (∀ w', (c x w').1 = Raise e) →
  ∃ new env',
    for_each (pre ++ x :: post) (λ x, call (ev x) (c x)) w
    = (Raise e, {| trace := trace w ++ new; environ := env' |})
    ∧ new.*1 = map ev (pre ++ [x]).
Proof.
  revert w. induction pre as [|y pre IH]; intros w Hs Hx; simpl.
  - exists [(ev x, environ w)], (c x w).2.
    erewrite bind_Raise; [split; [reflexivity|done]|].
    unfold call. specialize (Hx w). destruct (c x w) as [o env']. simpl in *.
    by subst.
  - destruct (call_succeeds (ev y) (c y) w) as (b & env1 & E).
    { apply Hs. by left. }
    erewrite bind_Return by exact E.
    destruct (IH {| trace := trace w ++ [(ev y, environ w)]; environ := env1 |})
      as (new & env' & E' & Hnew); [|done|].
    { intros z Hz. apply Hs. by right. }
    exists ((ev y, environ w) :: new), env'. simpl in E'.
    rewrite E', <- app_assoc. split; [done|]. by rewrite fmap_cons, Hnew.
Qed.

End Loops.

Lemma comprehension_map {A B} (f : A → Outcome B) (g : A → B) (xs : list A) :
  (∀ x, x ∈ xs → f x = Return (g x)) →
  comprehension f xs = Return (map g xs).
Proof.
  induction xs as [|x xs IH]; intros H; simpl; [done|].
  rewrite H by (by left). rewrite IH; [done|].
  intros y Hy. apply H. by right.
Qed.

(** ** The timestamp converter *)

Lemma strptime_raises_ValueError data format e :
  strptime data format = Raise e → ∃ msg, e = ValueError msg.
Proof.
  unfold strptime.
  destruct (negb _); [intros [= <-]; eauto|].
  destruct (match_items _ _) as [|[found [|c rest]] l]; try (intros [= <-]; eauto).
  destruct (valid_datetime _); [done|]. intros [= <-]; eauto.
Qed.

Lemma alternative_here d ks alts items s txt r found rest :
  match_classes ks s = Some (txt, r) →
  head (match_items items r) = Some (found, rest) →
  head (try_alternatives d (ks :: alts) items s) = Some ((d, txt) :: found, rest).
Proof.
  intros Hk Hi. unfold try_alternatives. simpl. rewrite Hk. simpl.
  destruct (match_items items r) as [|[f r'] l]; [done|].
  simpl in Hi. injection Hi as -> ->. done.
Qed.

Lemma alternative_none d ks alts items s X :
  match_classes ks s = None →
  head (try_alternatives d alts items s) = X →
  head (try_alternatives d (ks :: alts) items s) = X.
Proof. intros Hk Hi. unfold try_alternatives in *. simpl. by rewrite Hk. Qed.

Lemma alternative_fails d ks alts items s txt r X :
  match_classes ks s = Some (txt, r) →
  match_items items r = [] →
  head (try_alternatives d alts items s) = X →
  head (try_alternatives d (ks :: alts) items s) = X.
Proof.
  intros Hk Hr Hi. unfold try_alternatives in *. simpl. rewrite Hk. simpl.
  by rewrite Hr.
Qed.

Lemma in_range (P : Z → Prop) (lo hi : Z) :
  Forall P (seqZ lo (hi - lo + 1)) → ∀ n, lo ≤ n ≤ hi → P n.
Proof.
  intros F n Hn. rewrite Forall_forall in F. apply F.
  apply elem_of_seqZ. lia.
Qed.

Lemma check_range (p : Z → bool) (lo hi : Z) :
  forallb p (seqZ lo (hi - lo + 1)) = true → ∀ n, lo ≤ n ≤ hi → p n = true.
Proof.
  intros F n Hn. rewrite forallb_forall in F. apply F.
  apply list_elem_of_In, elem_of_seqZ. lia.
Qed.

Ltac alternatives H :=
  repeat first
    [ eapply alternative_here; [reflexivity | exact H]
    | eapply alternative_none; [reflexivity|]
    | eapply alternative_fails; [reflexivity | reflexivity |] ].

Ltac each_in_range tac :=
  match goal with
  | |- Forall _ ?l => let l' := eval vm_compute in l in change l with l'
  end;
  repeat (apply Forall_cons_2; [tac|]); apply Forall_nil_2.

(** A two-digit field before its separator: [d] with the alternatives
    [alts], for the values [lo] to [hi]. *)
Ltac field_matches d alts lo hi :=
  intros n Hn; intros items data found rest; revert items data found rest;
  pattern n; revert n Hn; apply (in_range _ lo hi);
  each_in_range ltac:(
    intros items data found rest H;
    change (match_items (Directive d :: ?i) ?s)
      with (try_alternatives d alts i s);
    alternatives H).

Lemma month_matches n :
  1 ≤ n ≤ 12 → ∀ items data found rest,
  head (match_items items data) = Some (found, rest) →
  head (match_items (Directive "m" :: Literal "-" :: items)
          (two_digits n ++ "-"%char :: data))
  = Some (("m"%char, two_digits n) :: found, rest).
Proof.
  revert n.
  field_matches "m"%char
    [[Lit "1"; Range "0" "2"]; [Lit "0"; Range "1" "9"]; [Range "1" "9"]] 1 12.
Qed.

Lemma day_matches n :
  1 ≤ n ≤ 31 → ∀ items data found rest,
  head (match_items items data) = Some (found, rest) →
  head (match_items (Directive "d" :: Literal "T" :: items)
          (two_digits n ++ "T"%char :: data))
  = Some (("d"%char, two_digits n) :: found, rest).
Proof.
  revert n.
  field_matches "d"%char
    [[Lit "3"; Range "0" "1"]; [Range "1" "2"; Digit]; [Lit "0"; Range "1" "9"];
     [Range "1" "9"]; [Lit " "; Range "1" "9"]] 1 31.
Qed.

Lemma hour_matches n :
  0 ≤ n ≤ 23 → ∀ items data found rest,
  head (match_items items data) = Some (found, rest) →
  head (match_items (Directive "H" :: Literal ":" :: items)
          (two_digits n ++ ":"%char :: data))
  = Some (("H"%char, two_digits n) :: found, rest).
Proof.
  revert n.
  field_matches "H"%char
    [[Lit "2"; Range "0" "3"]; [Range "0" "1"; Digit]; [Digit]] 0 23.
Qed.

Lemma minute_matches n :
  0 ≤ n ≤ 59 → ∀ items data found rest,
  head (match_items items data) = Some (found, rest) →
  head (match_items (Directive "M" :: Literal ":" :: items)
          (two_digits n ++ ":"%char :: data))
  = Some (("M"%char, two_digits n) :: found, rest).
Proof.
  revert n.
  field_matches "M"%char [[Range "0" "5"; Digit]; [Digit]] 0 59.
Qed.

Lemma second_matches n :
  0 ≤ n ≤ 59 → ∀ items data found rest,
  head (match_items items data) = Some (found, rest) →
  head (match_items (Directive "S" :: Literal "Z" :: items)
          (two_digits n ++ "Z"%char :: data))
  = Some (("S"%char, two_digits n) :: found, rest).
Proof.
  revert n.
  field_matches "S"%char
    [[Lit "6"; Range "0" "1"]; [Range "0" "5"; Digit]; [Digit]] 0 59.
Qed.

Lemma match_classes_app ks s txt r data :
  match_classes ks s = Some (txt, r) →
  match_classes ks (s ++ data) = Some (txt, r ++ data).
Proof.
  revert s txt r. induction ks as [|k ks IH]; intros s txt r; simpl.
  - by intros [= <- <-].
  - destruct s as [|c s]; [done|]. simpl.
    destruct (in_class k c); [|done].
    destruct (match_classes ks s) as [[t r']|] eqn:E; [|done].
    intros [= <- <-]. by rewrite (IH _ _ _ E).
Qed.

Lemma is_digit_digit k : 0 ≤ k ≤ 9 → is_digit (digit k) = true.
Proof. by apply (check_range (λ k, is_digit (digit k)) 0 9). Qed.

Lemma year_matches y :
  0 ≤ y ≤ 9999 → ∀ items data found rest,
  head (match_items items data) = Some (found, rest) →
  head (match_items (Directive "Y" :: Literal "-" :: items)
          (four_digits y ++ "-"%char :: data))
  = Some (("Y"%char, four_digits y) :: found, rest).
Proof.
  intros Hy items data found rest H.
  change (match_items (Directive "Y" :: ?i) ?s)
    with (try_alternatives "Y" [[Digit; Digit; Digit; Digit]] i s).
  eapply alternative_here.
  - unfold four_digits. cbn [match_classes in_class app].
    rewrite !is_digit_digit by (Z.div_mod_to_equations; lia). reflexivity.
  - exact H.
Qed.

Lemma int_of_two_digits n : 0 ≤ n ≤ 99 → int_of_text (two_digits n) = n.
Proof.
  intros Hn. apply Z.eqb_eq.
  by apply (check_range (λ n, int_of_text (two_digits n) =? n) 0 99).
Qed.

Lemma int_of_four_digits y : 0 ≤ y ≤ 9999 → int_of_text (four_digits y) = y.
Proof.
  intros Hy. apply Z.eqb_eq.
  apply (check_range (λ y, int_of_text (four_digits y) =? y) 0 9999);
    [vm_compute; reflexivity | exact Hy].
Qed.

Lemma days_in_month_le y m : days_in_month y m ≤ 31.
Proof. unfold days_in_month. repeat case_match; lia. Qed.

(** Parsing inverts writing: a date and time that exist, written out
    the canonical way, parse back to themselves. *)
Lemma strptime_rfc3339_utc (t : datetime) :
  valid_datetime t = true →
  strptime (rfc3339_utc t) "%Y-%m-%dT%H:%M:%SZ" = Return t.
Proof.
  intros Hv. pose proof Hv as Hv'. unfold valid_datetime in Hv'.
  repeat (apply andb_true_iff in Hv' as [Hv' ?]).
  repeat match goal with H : (_ <=? _) = true |- _ => apply Z.leb_le in H end.
  pose proof (days_in_month_le (year t) (month t)).
  unfold strptime, rfc3339_utc. rewrite list_ascii_of_string_of_list_ascii.
  match goal with
  | |- context [ format_items ?f ] =>
      let items := eval vm_compute in (format_items f) in
      change (format_items f) with items
  end.
  cbn [all_known forallb negb].
  assert (head (match_items [] []) = Some ([], [])) as Hm by reflexivity.
  apply (second_matches (second t)) in Hm; [|lia].
  apply (minute_matches (minute t)) in Hm; [|lia].
  apply (hour_matches (hour t)) in Hm; [|lia].
  apply (day_matches (day t)) in Hm; [|lia].
  apply (month_matches (month t)) in Hm; [|lia].
  apply (year_matches (year t)) in Hm; [|lia].
  match goal with
  | |- context [ negb ?b ] => change (negb b) with false
  end.
  cbv iota.
  destruct (match_items _ _) as [|[f r] l]; [done|].
  simpl in Hm. injection Hm as -> ->.
  cbn -[int_of_text four_digits two_digits valid_datetime].
  rewrite int_of_four_digits by lia. rewrite !int_of_two_digits by lia.
  replace {| year := year t; month := month t; day := day t; hour := hour t;
             minute := minute t; second := second t |} with t
    by (by destruct t).
  by rewrite Hv.
Qed.

(** C7, as amended.  For every string given to [--cli-source-timestamp]:
    when [datetime.strptime] accepts it for the format
    [%Y-%m-%dT%H:%M:%SZ] the converter returns the same string unchanged;
    when [strptime] rejects it the converter raises [ArgumentTypeError]
    with the text [Datetime "<the string>" is in the wrong format.], which
    quotes the offending value.  Accepted, and so returned unchanged, is
    in particular every [YYYY-MM-DDTHH:MM:SSZ] written out for a date and
    time that exist. *)
Theorem is_valid_datetime_echoes_or_rejects (dt : string) :
  (returned (strptime dt "%Y-%m-%dT%H:%M:%SZ") = true →
     __is_valid_datetime dt = Return dt) ∧
  (returned (strptime dt "%Y-%m-%dT%H:%M:%SZ") = false →
     __is_valid_datetime dt
     = Raise (ArgumentTypeError
                ("Datetime " +:+ dquote +:+ dt +:+ dquote
                 +:+ " is in the wrong format."))) ∧
  (∀ t, valid_datetime t = true → dt = rfc3339_utc t →
     __is_valid_datetime dt = Return dt).
Proof.
  assert (returned (strptime dt "%Y-%m-%dT%H:%M:%SZ") = true →
          __is_valid_datetime dt = Return dt) as Hok.
  { unfold __is_valid_datetime. by destruct (strptime dt _). }
  split; [exact Hok|]. split.
  - unfold __is_valid_datetime.
    destruct (strptime dt _) as [t|e] eqn:E; simpl; [done|].
    intros _. by destruct (strptime_raises_ValueError _ _ _ E) as [msg ->].
  - intros t Hv ->. apply Hok. by rewrite strptime_rfc3339_utc.
Qed.

Lemma is_valid_datetime_echoes_or_rejects_witness :
  returned (strptime "2019-05-01T12:30:45Z" "%Y-%m-%dT%H:%M:%SZ") = true ∧
  __is_valid_datetime "2019-05-01T12:30:45Z" = Return "2019-05-01T12:30:45Z" ∧
  returned (strptime "2019-05-01 12:30" "%Y-%m-%dT%H:%M:%SZ") = false ∧
  __is_valid_datetime "2019-05-01 12:30"
  = Raise (ArgumentTypeError
             ("Datetime " +:+ dquote +:+ "2019-05-01 12:30" +:+ dquote
              +:+ " is in the wrong format.")) ∧
  valid_datetime {| year := 2020; month := 2; day := 29;
                    hour := 23; minute := 59; second := 59 |} = true ∧
  __is_valid_datetime "2020-02-29T23:59:59Z" = Return "2020-02-29T23:59:59Z".
Proof.
  split; [reflexivity|]. split.
  { apply (is_valid_datetime_echoes_or_rejects "2019-05-01T12:30:45Z").
    reflexivity. }
  split; [reflexivity|]. split.
  { apply (is_valid_datetime_echoes_or_rejects "2019-05-01 12:30"). reflexivity. }
  split; [reflexivity|].
  apply (is_valid_datetime_echoes_or_rejects "2020-02-29T23:59:59Z")
    with (t := {| year := 2020; month := 2; day := 29;
                  hour := 23; minute := 59; second := 59 |}); reflexivity.
Defined.

(** [strptime] is more lenient than the canonical form: fields need not
    be zero-padded and [T] and [Z] match in either case.  Such a string is
    accepted and returned as it came; dates that do not exist and a
    sixtieth second are rejected. *)
Example lenient_and_strict_timestamps :
  __is_valid_datetime "2019-5-1t1:2:3z" = Return "2019-5-1t1:2:3z" ∧
  returned (__is_valid_datetime "2019-02-29T00:00:00Z") = false ∧
  returned (__is_valid_datetime "2016-12-31T23:59:60Z") = false ∧
  returned (__is_valid_datetime "2019-05-01T12:30:45Z ") = false.
Proof. repeat split; reflexivity. Qed.

(** C7, as the specification has it, fails: for the malformed timestamp
    [yesterday] the error names neither the option nor the expected
    format, and the expected format is still missing once argparse has
    put the option's name in front. *)
Lemma wrong_format_error_omits_the_format :
  returned (strptime "yesterday" "%Y-%m-%dT%H:%M:%SZ") = false ∧
  __is_valid_datetime "yesterday"
  = Raise (ArgumentTypeError
             ("Datetime " +:+ dquote +:+ "yesterday" +:+ dquote
              +:+ " is in the wrong format.")) ∧
  names_field_and_format
    ("Datetime " +:+ dquote +:+ "yesterday" +:+ dquote
     +:+ " is in the wrong format.") = false ∧
  names_field_and_format
    (argument_error "--cli-source-timestamp"
       ("Datetime " +:+ dquote +:+ "yesterday" +:+ dquote
        +:+ " is in the wrong format.")) = false.
Proof. repeat split; vm_compute; reflexivity. Qed.

(** ** Tool provisioning *)

Section Init_tools.

Variable ext : External.

(** One call of [init_tools] whose monikers all have a channel: the log
    line, the toolchain install with the channels, and, unless that
    install raised, the BenchView install.  Nothing is consulted first. *)
Lemma init_tools_calls a v tfms verbose chs w :
  comprehension (get_channel ext) tfms = Return chs →
  let r := init_tools ext a v tfms verbose w in
  ∃ rest,
    calls r.2
    = calls w ++ [ELogInfo "Installing tools."; EDotnetInstall a chs v verbose]
              ++ rest ∧
    (rest = [] ∨ rest = [EBenchviewInstall]) ∧
    (r.1 = Return tt → rest = [EBenchviewInstall]).
Proof.
  intros Hch. unfold init_tools, mbind, M_bind, mret, M_ret, logger_info, lift, call.
  rewrite Hch. simpl.
  destruct (dotnet_install ext a chs v verbose _) as [[x|e] env1]; simpl.
  - destruct (benchview_install ext _) as [[y|e] env2]; simpl;
      exists [EBenchviewInstall]; unfold calls; simpl;
      rewrite !fmap_app, <- !app_assoc; simpl; eauto.
  - exists []. unfold calls; simpl.
    rewrite !fmap_app, <- !app_assoc; simpl. split; [done|]. split; [eauto|done].
Qed.

Lemma init_tools_emits (P : Event → Prop) a v tfms verbose :
  P (ELogInfo "Installing tools.") →
  (∀ chs, comprehension (get_channel ext) tfms = Return chs →
          P (EDotnetInstall a chs v verbose)) →
  P EBenchviewInstall →
  emits P (init_tools ext a v tfms verbose).
Proof.
  intros HL HI HB. unfold init_tools.
  apply emits_bind; [by apply emits_logger_info | intros _].
  apply emits_bind_lift. intros chs Hch.
  apply emits_bind; [apply emits_call; by apply HI | intros _].
  apply emits_bind; [by apply emits_call | intros _]. apply emits_ret.
Qed.

End Init_tools.

(** C1.  The docstring of [init_tools] promises a semaphore file that
    avoids reinstalling; the function has none.  Called twice with the
    same architecture, version, monikers and verbosity, the first call
    returning, it logs and calls the toolchain install both times, with
    the same arguments: two install calls, not one. *)
Theorem init_tools_installs_on_every_call
    (ext : External) (a : string) (v : option string) (tfms chs : list string)
    (verbose : bool) (w : World) :
  comprehension (get_channel ext) tfms = Return chs →
  let r1 := init_tools ext a v tfms verbose w in
  let r2 := init_tools ext a v tfms verbose r1.2 in
  r1.1 = Return tt →
  (∃ rest,
     calls r2.2
     = calls w ++ [ELogInfo "Installing tools."; EDotnetInstall a chs v verbose;
                   EBenchviewInstall;
                   ELogInfo "Installing tools."; EDotnetInstall a chs v verbose]
               ++ rest ∧
     (rest = [] ∨ rest = [EBenchviewInstall])) ∧
  count is_dotnet_install r2.2 = (count is_dotnet_install w + 2)%nat.
Proof.
  intros Hch r1 r2 H1.
  destruct (init_tools_calls ext a v tfms verbose chs w Hch)
    as (rest1 & E1 & _ & R1).
  destruct (init_tools_calls ext a v tfms verbose chs r1.2 Hch)
    as (rest2 & E2 & R2 & _).
  fold r1 in E1, R1. fold r2 in E2. rewrite (R1 H1) in E1.
  assert (calls r2.2
          = calls w ++ [ELogInfo "Installing tools.";
                        EDotnetInstall a chs v verbose; EBenchviewInstall;
                        ELogInfo "Installing tools.";
                        EDotnetInstall a chs v verbose] ++ rest2) as E.
  { rewrite E2, E1, <- !app_assoc. done. }
  split; [by exists rest2|].
  unfold count, calls_of. rewrite E, !calls_of_app, !length_app.
  destruct R2 as [-> | ->]; simpl; lia.
Qed.

Lemma init_tools_installs_on_every_call_witness :
  let ext := lab (lab_args ["net6.0"] false false false None) lab_channel
                 (λ _, Return VNone) in
  let r1 := init_tools ext "x64" None ["net6.0"] true (start ∅) in
  let r2 := init_tools ext "x64" None ["net6.0"] true r1.2 in
  count is_dotnet_install r2.2 = 2%nat.
Proof.
  intros ext r1 r2.
  apply (init_tools_installs_on_every_call ext "x64" None ["net6.0"] ["6.0"]
           true (start ∅)); reflexivity.
Defined.

Lemma dedup_from_length (seen l : list string) :
  (length (dedup_from seen l) ≤ length l)%nat.
Proof.
  revert seen. induction l as [|x l IH]; intros seen; simpl; [done|].
  destruct (existsb _ seen); simpl.
  - specialize (IH seen). lia.
  - specialize (IH (x :: seen)). lia.
Qed.

(** De-duplication leaves a list as it is exactly when the list has no
    repetition and nothing of it was seen before. *)
Lemma dedup_from_fixed (seen l : list string) :
  dedup_from seen l = l ↔ NoDup l ∧ ∀ x, x ∈ l → x ∉ seen.
Proof.
  revert seen. induction l as [|x l IH]; intros seen; simpl.
  - split; [intros _|done]. split; [constructor|].
    intros x Hx. by apply elem_of_nil in Hx.
  - destruct (existsb _ seen) eqn:Ex.
    + split.
      * intros E. exfalso. pose proof (dedup_from_length seen l) as Hl.
        rewrite E in Hl. simpl in Hl. lia.
      * intros [_ Hs]. exfalso.
        apply existsb_exists in Ex as (y & Hy & Exy).
        apply String.eqb_eq in Exy as <-.
        apply (Hs x); [by left | by apply list_elem_of_In].
    + assert (x ∉ seen) as Hx.
      { intros Hin. apply list_elem_of_In in Hin.
        assert (existsb (String.eqb x) seen = true) as Ht; [|congruence].
        apply existsb_exists. exists x. split; [done | apply String.eqb_refl]. }
      split.
      * intros [= E]. apply IH in E as [Hnd Hs]. split.
        -- constructor; [|done]. intros Hin. apply (Hs x Hin). by left.
        -- intros y Hy Hin. apply elem_of_cons in Hy as [-> | Hy]; [done|].
           apply (Hs y Hy). by right.
      * intros [Hnd Hs]. apply NoDup_cons in Hnd as [Hxl Hnd].
        f_equal. apply IH. split; [done|]. intros y Hy Hin.
        apply elem_of_cons in Hin as [-> | Hin]; [done|].
        apply (Hs y); [by right | done].
Qed.

Lemma order_preserving_dedup_fixed (l : list string) :
  order_preserving_dedup l = l ↔ NoDup l.
Proof.
  unfold order_preserving_dedup. rewrite dedup_from_fixed. split.
  - by intros [H _].
  - intros H. split; [done|]. intros x _ Hin. by apply elem_of_nil in Hin.
Qed.

(** C6, as amended.  For every list of monikers, each with a channel
    under the mapping, [init_tools] passes to the toolchain install the
    image of the list under the mapping: one channel per moniker, in the
    order of the monikers, repeated channels kept.  That list is the
    de-duplicated one exactly when it has no repeated channel. *)
Theorem channels_are_the_image_of_the_monikers
    (ext : External) (channel_of : string → string) (a : string)
    (v : option string) (tfms : list string) (verbose : bool) (w : World) :
  (∀ t, t ∈ tfms → get_channel ext t = Return (channel_of t)) →
  let r := init_tools ext a v tfms verbose w in
  calls_of is_dotnet_install r.2
  = calls_of is_dotnet_install w
      ++ [EDotnetInstall a (map channel_of tfms) v verbose] ∧
  length (map channel_of tfms) = length tfms ∧
  (order_preserving_dedup (map channel_of tfms) = map channel_of tfms
   ↔ NoDup (map channel_of tfms)).
Proof.
  intros Hch r.
  destruct (init_tools_calls ext a v tfms verbose (map channel_of tfms) w)
    as (rest & E & R & _); [by apply comprehension_map|].
  fold r in E. split; [|split].
  - unfold calls_of. rewrite E, !calls_of_app.
    destruct R as [-> | ->]; simpl; by rewrite ?app_nil_r.
  - apply length_map.
  - apply order_preserving_dedup_fixed.
Qed.

Lemma channels_are_the_image_of_the_monikers_witness :
  let ext := lab (lab_args ["net6.0"; "net7.0"] false false false None)
                 lab_channel (λ _, Return VNone) in
  let r := init_tools ext "x64" None ["net6.0"; "net7.0"] true (start ∅) in
  calls_of is_dotnet_install r.2 = [EDotnetInstall "x64" ["6.0"; "7.0"] None true].
Proof.
  intros ext r.
  apply (channels_are_the_image_of_the_monikers ext
           (λ t, if String.eqb t "net6.0" then "6.0" else "7.0")
           "x64" None ["net6.0"; "net7.0"] true (start ∅)).
  intros t Ht. apply elem_of_cons in Ht as [-> | Ht]; [reflexivity|].
  apply elem_of_cons in Ht as [-> | Ht]; [reflexivity|].
  by apply elem_of_nil in Ht.
Defined.

(** C6, as the specification has it, fails: a moniker asked for twice
    has its channel passed twice, where the de-duplicated list has it
    once. *)
Lemma repeated_channel_is_passed_twice :
  let ext := lab (lab_args ["net6.0"; "net6.0"] false false false None)
                 lab_channel (λ _, Return VNone) in
  let r := init_tools ext "x64" None ["net6.0"; "net6.0"] true (start ∅) in
  calls_of is_dotnet_install r.2
  = [EDotnetInstall "x64" ["6.0"; "6.0"] None true] ∧
  order_preserving_dedup ["6.0"; "6.0"] = ["6.0"] ∧
  calls_of is_dotnet_install r.2
  ≠ [EDotnetInstall "x64" (order_preserving_dedup ["6.0"; "6.0"]) None true].
Proof.
  split; [|split]; vm_compute; [reflexivity | reflexivity | discriminate].
Qed.

(** ** The controller *)

Ltac step_call H :=
  match goal with
  | |- context [ (call ?e ?c ≫= ?k) ?w ] =>
      let a := fresh "a" in
      let env' := fresh "env" in
      let E := fresh "E" in
      destruct (call_succeeds e c w H) as (a & env' & E);
      rewrite (bind_Return _ k _ _ _ E); clear E; cbv beta
  end.

Ltac step_lift H :=
  match goal with
  | |- context [ (lift ?o ≫= ?k) ?w ] =>
      rewrite (bind_Return (lift o) k w _ w (f_equal (λ x, (x, w)) H)); cbv beta
  end.

Section Controller.

Variable ext : External.

Lemma init_tools_returns a v tfms verbose chs w :
  comprehension (get_channel ext) tfms = Return chs →
  prepares ext →
  ∃ env1 env',
    init_tools ext a v tfms verbose w
    = (Return tt,
       {| trace := trace w ++ [(ELogInfo "Installing tools.", environ w);
                               (EDotnetInstall a chs v verbose, environ w);
                               (EBenchviewInstall, env1)];
          environ := env' |}).
Proof.
  intros Hch Hp. unfold init_tools.
  erewrite bind_Return by reflexivity. cbv beta.
  step_lift Hch.
  step_call (prep_dotnet ext Hp a chs v verbose).
  step_call (prep_benchview ext Hp).
  exists env, env0. unfold mret, M_ret. simpl. rewrite <- !app_assoc. done.
Qed.

(** With the command line parsed and valid and the called modules
    returning, [__main] is its run phase, entered after the preparation
    calls and, unless in run-only mode, the one build call. *)
Lemma main_prepared argv args env tfms chs :
  parse_args ext argv = Return args →
  missing_submission_name args = false →
  get_target_framework_monikers ext (frameworks args) = Return tfms →
  comprehension (get_channel ext) tfms = Return chs →
  prepares ext →
  ∃ proj w1,
    __main ext argv (start env) = run_phase ext args proj w1 ∧
    calls w1
    = preparation args tfms chs
      ++ (if run_only args then []
          else [EBuild proj (configuration args) tfms (incremental args)
                  (negb (quiet args))]).
Proof.
  intros Hparse Hvalid Htfms Hch Hp. unfold __main, __process_arguments.
  step_call (prep_runtime ext Hp).
  step_lift Hparse.
  step_call (prep_loggers ext Hp (negb (quiet args))).
  unfold missing_submission_name in Hvalid. rewrite Hvalid.
  step_lift Htfms.
  destruct (init_tools_returns (architecture args) (dotnet_version args) tfms
              (negb (quiet args)) chs
              {| trace := (trace (start env) ++ [(EValidateSupportedRuntime, environ (start env))])
                            ++ [(ESetupLoggers (negb (quiet args)), env0)];
                 environ := env1 |} Hch Hp) as (env2 & env3 & Einit).
  simpl in Einit. simpl.
  rewrite (bind_Return _ _ _ _ _ Einit). cbv beta.
  erewrite bind_Return by reflexivity. cbv beta.
  step_call (prep_info ext Hp (negb (quiet args))).
  step_call (prep_project ext Hp (csprojfile args) (bin_directory args)).
  destruct (run_only args) eqn:Hro; simpl.
  - erewrite bind_Return by reflexivity. cbv beta.
    eexists _, _. split; [reflexivity|]. unfold calls. simpl. reflexivity.
  - match goal with
    | |- context [ ((call ?e ?c ≫= ?k1) ≫= ?k) ?w ] =>
        destruct (call_succeeds e c w
                    (prep_build ext Hp _ _ _ _ _)) as (b & envb & Eb);
        rewrite (bind_Return (call e c ≫= k1) k w tt _
                   (eq_trans (bind_Return _ k1 _ _ _ Eb) eq_refl))
    end.
    eexists _, _. split; [reflexivity|]. unfold calls. simpl. reflexivity.
Qed.

End Controller.

Ltac emits_auto :=
  repeat first
    [ apply emits_ret | apply emits_raise
    | apply emits_call | apply emits_environ_set | apply emits_logger_info
    | apply emits_bind_lift; intros ? ?
    | apply emits_for_each; intros ?
    | apply emits_bind; [|intros ?] ].

Section Controller_facts.

Variable ext : External.

Lemma run_phase_build_only args proj w :
  build_only args = true → run_phase ext args proj w = (Return tt, w).
Proof. intros H. unfold run_phase. by rewrite H. Qed.

Lemma run_phase_returns args proj w :
  build_only args = false →
  (∀ f, f ∈ frameworks args →
        succeeds (micro_benchmarks_run ext proj (configuration args) f
                    (negb (quiet args)) args)) →
  succeeds (benchview_run_scripts ext args (negb (quiet args)) proj) →
  ∃ new env',
    run_phase ext args proj w
    = (Return tt, {| trace := trace w ++ new; environ := env' |}) ∧
    new.*1
    = map (λ f, ERun proj (configuration args) f (negb (quiet args)) args)
          (frameworks args)
      ++ [ERunScripts args (negb (quiet args)) proj].
Proof.
  intros Hbo Hrun Hrep. unfold run_phase. rewrite Hbo. simpl.
  destruct (for_each_call_returns
              (λ f, ERun proj (configuration args) f (negb (quiet args)) args)
              (λ f, micro_benchmarks_run ext proj (configuration args) f
                      (negb (quiet args)) args)
              (frameworks args) w Hrun) as (new & env1 & E & Hnew).
  rewrite (bind_Return _ _ _ _ _ E). cbv beta.
  step_call Hrep. unfold mret, M_ret. simpl.
  eexists _, _. rewrite <- app_assoc. split; [reflexivity|].
  by rewrite fmap_app, Hnew.
Qed.

Lemma run_phase_raises args proj w pre f post e :
  build_only args = false →
  frameworks args = pre ++ f :: post →
  (∀ f', f' ∈ pre →
         succeeds (micro_benchmarks_run ext proj (configuration args) f'
                     (negb (quiet args)) args)) →
  (∀ w', (micro_benchmarks_run ext proj (configuration args) f
            (negb (quiet args)) args w').1 = Raise e) →
  ∃ new env',
    run_phase ext args proj w
    = (Raise e, {| trace := trace w ++ new; environ := env' |}) ∧
    new.*1
    = map (λ f, ERun proj (configuration args) f (negb (quiet args)) args)
          (pre ++ [f]).
Proof.
  intros Hbo Hfs Hpre Hf. unfold run_phase. rewrite Hbo, Hfs. simpl.
  destruct (for_each_call_raises
              (λ f, ERun proj (configuration args) f (negb (quiet args)) args)
              (λ f, micro_benchmarks_run ext proj (configuration args) f
                      (negb (quiet args)) args)
              pre post f e w Hpre Hf) as (new & env1 & E & Hnew).
  rewrite (bind_Raise _ _ _ _ _ E). by eexists _, _.
Qed.

Lemma main_emits argv args :
  parse_args ext argv = Return args →
  emits (may_call args) (__main ext argv).
Proof.
  intros Hparse. unfold __main, __process_arguments, init_tools.
  rewrite Hparse.
  apply emits_bind; [by apply emits_call | intros _].
  apply emits_bind_lift. intros ? [= <-]. cbv zeta.
  apply emits_bind; [by apply emits_call | intros _].
  destruct (generate_benchview_data args && _) eqn:Hvalid; [apply emits_raise|].
  apply emits_bind_lift. intros tfms _.
  destruct (run_only args) eqn:Hro, (build_only args) eqn:Hbo; simpl;
    emits_auto; simpl; auto.
Qed.

Lemma main_never_calls (p : Event → bool) argv args env :
  parse_args ext argv = Return args →
  (∀ e, may_call args e → p e = false) →
  count p (__main ext argv (start env)).2 = 0%nat.
Proof.
  intros Hparse Hp. apply emits_none. intros w.
  destruct (main_emits argv args Hparse w) as (new & E & F).
  exists new. split; [done|]. eapply Forall_impl; [exact F|]. exact Hp.
Qed.

End Controller_facts.

(** ** Properties of the controller *)

(** C3.  In full mode with frameworks [net6.0] and [net7.0], the command
    line valid and every call returning: after the preparation calls,
    [__main] makes one build call with the whole list of monikers the two
    frameworks resolve to, then one run call for [net6.0], then one for
    [net7.0], then one report call, and returns. *)
Theorem full_mode_builds_once_runs_each_reports_once
    (ext : External) (argv : list string) (args : Namespace) (env : Environ)
    (tfms chs : list string) :
  parse_args ext argv = Return args →
  frameworks args = ["net6.0"; "net7.0"] →
  build_only args = false →
  run_only args = false →
  missing_submission_name args = false →
  get_target_framework_monikers ext ["net6.0"; "net7.0"] = Return tfms →
  comprehension (get_channel ext) tfms = Return chs →
  cooperative ext →
  let r := __main ext argv (start env) in
  let v := negb (quiet args) in
  r.1 = Return tt ∧
  (∃ proj,
     calls r.2
     = preparation args tfms chs
       ++ [EBuild proj (configuration args) tfms (incremental args) v;
           ERun proj (configuration args) "net6.0" v args;
           ERun proj (configuration args) "net7.0" v args;
           ERunScripts args v proj]) ∧
  count is_build r.2 = 1%nat ∧
  count is_run r.2 = 2%nat ∧
  count is_report r.2 = 1%nat.
Proof.
  intros Hparse Hfs Hbo Hro Hvalid Htfms Hch [Hp Hrun Hrep] r v.
  rewrite <- Hfs in Htfms.
  destruct (main_prepared ext argv args env tfms chs Hparse Hvalid Htfms Hch Hp)
    as (proj & w1 & Emain & Ecalls).
  destruct (run_phase_returns ext args proj w1 Hbo) as (new & env' & E & Hnew);
    [intros; apply Hrun | apply Hrep |].
  subst r. rewrite Emain, E. simpl.
  assert (calls {| trace := trace w1 ++ new; environ := env' |}
          = preparation args tfms chs
            ++ [EBuild proj (configuration args) tfms (incremental args) v;
                ERun proj (configuration args) "net6.0" v args;
                ERun proj (configuration args) "net7.0" v args;
                ERunScripts args v proj]) as Ec.
  { rewrite calls_app. rewrite Ecalls, Hnew, Hro, Hfs.
    rewrite <- app_assoc. done. }
  split; [done|]. split; [by exists proj|].
  unfold count, calls_of. rewrite Ec. done.
Qed.

Lemma full_mode_builds_once_runs_each_reports_once_witness :
  let args := lab_args ["net6.0"; "net7.0"] false false false None in
  let r := __main (lab args lab_channel (λ _, Return VNone)) [] (start ∅) in
  r.1 = Return tt ∧
  (∃ proj,
     calls r.2
     = preparation args ["net6.0"; "net7.0"] ["6.0"; "7.0"]
       ++ [EBuild proj "Release" ["net6.0"; "net7.0"] "yes" true;
           ERun proj "Release" "net6.0" true args;
           ERun proj "Release" "net7.0" true args;
           ERunScripts args true proj]) ∧
  count is_build r.2 = 1%nat ∧
  count is_run r.2 = 2%nat ∧
  count is_report r.2 = 1%nat.
Proof.
  intros args r.
  apply (full_mode_builds_once_runs_each_reports_once
           (lab args lab_channel (λ _, Return VNone)) [] args ∅
           ["net6.0"; "net7.0"] ["6.0"; "7.0"]); try reflexivity.
  repeat split; intros; apply quietly_succeeds.
Defined.

Lemma bind_ext {A B} (m : M A) (k k' : A → M B) w :
  (∀ a w', k a w' = k' a w') → (m ≫= k) w = (m ≫= k') w.
Proof.
  intros H. unfold mbind, M_bind. destruct (m w) as [[a|e] w1]; [apply H | done].
Qed.

Lemma bind_forget {A B} (m m' : M A) (n : M B) w :
  forget (m w) = forget (m' w) → (m ≫= λ _, n) w = (m' ≫= λ _, n) w.
Proof.
  unfold forget, mbind, M_bind.
  destruct (m w) as [[a|e] w1], (m' w) as [[a'|e'] w1']; simpl;
    intros [= ]; by subst.
Qed.

Lemma for_each_forget {A B} (body body' : A → M B) xs w :
  (∀ x w', forget (body x w') = forget (body' x w')) →
  for_each xs body w = for_each xs body' w.
Proof.
  intros H. revert w. induction xs as [|x xs IH]; intros w; simpl; [done|].
  rewrite (bind_forget (body x) (body' x)) by apply H.
  apply bind_ext. intros _ w'. apply IH.
Qed.

(** What the runs return never reaches [__main]: rewriting the values
    leaves the invocation as it is, outcome and world. *)
Lemma run_values_are_discarded ext g argv w :
  __main (with_run_values g ext) argv w = __main ext argv w.
Proof.
  unfold __main, __process_arguments, init_tools.
  cbn [with_run_values validate_supported_runtime parse_args setup_loggers
       get_target_framework_monikers get_channel dotnet_install
       benchview_install dotnet_info dotnet_CSharpProject
       micro_benchmarks_build benchview_run_scripts].
  apply bind_ext. intros _ w1. apply bind_ext. intros args w2. cbv zeta.
  apply bind_ext. intros _ w3.
  destruct (generate_benchview_data args && _); [done|].
  apply bind_ext. intros tfms w4. apply bind_ext. intros _ w5.
  apply bind_ext. intros _ w6. apply bind_ext. intros _ w7.
  apply bind_ext. intros proj w8. apply bind_ext. intros _ w9.
  destruct (negb (build_only args)); [|done].
  apply bind_forget. f_equal. apply for_each_forget. intros f w'.
  unfold forget, call. cbn [micro_benchmarks_run with_run_values].
  destruct (micro_benchmarks_run ext proj (configuration args) f
              (negb (quiet args)) args w') as [[x|e] env']; done.
Qed.

(** C5, as amended.  With the command line valid, the mode not
    build-only and the preparation calls returning, take any framework
    [f] of the matrix.  A run fails by raising, the one failure [__main]
    can observe: when the run of [f] raises, the runs before it having
    returned, [__main] ends with that exception after the run of [f], no
    later framework is run and no report call is made.  When every run
    and the report return, every framework is run, in order, and the
    report call follows.  What the runs return is discarded: rewriting
    the returned values changes neither the outcome nor the calls. *)
Theorem run_that_raises_stops_the_matrix
    (ext : External) (argv : list string) (args : Namespace) (env : Environ)
    (tfms chs pre post : list string) (f : string) :
  parse_args ext argv = Return args →
  build_only args = false →
  missing_submission_name args = false →
  get_target_framework_monikers ext (frameworks args) = Return tfms →
  comprehension (get_channel ext) tfms = Return chs →
  prepares ext →
  frameworks args = pre ++ f :: post →
  let r := __main ext argv (start env) in
  let v := negb (quiet args) in
  let run_or_report e := is_run e || is_report e in
  (∀ e : Exn,
     (∀ proj w, (micro_benchmarks_run ext proj (configuration args) f v args w).1
                = Raise e) →
     (∀ proj f', f' ∈ pre →
        succeeds (micro_benchmarks_run ext proj (configuration args) f' v args)) →
     r.1 = Raise e ∧
     (∃ proj,
        calls_of run_or_report r.2
        = map (λ f', ERun proj (configuration args) f' v args) (pre ++ [f])) ∧
     count is_run r.2 = length (pre ++ [f]) ∧
     count is_report r.2 = 0%nat) ∧
  ((∀ proj f', f' ∈ frameworks args →
      succeeds (micro_benchmarks_run ext proj (configuration args) f' v args)) →
   (∀ proj, succeeds (benchview_run_scripts ext args v proj)) →
   r.1 = Return tt ∧
   ∃ proj,
     calls_of run_or_report r.2
     = map (λ f', ERun proj (configuration args) f' v args) (frameworks args)
       ++ [ERunScripts args v proj]) ∧
  (∀ g : string → Value → Value,
     __main (with_run_values g ext) argv (start env) = r).
Proof.
  intros Hparse Hbo Hvalid Htfms Hch Hp Hfs r v run_or_report.
  destruct (main_prepared ext argv args env tfms chs Hparse Hvalid Htfms Hch Hp)
    as (proj & w1 & Emain & Ecalls).
  assert (∀ p, (∀ e, p e = true → run_or_report e = true) →
               List.filter p (calls w1) = []) as Hnone.
  { intros p Hpq. rewrite Ecalls.
    assert (∀ e, run_or_report e = false → p e = false) as Hq.
    { intros e He. destruct (p e) eqn:Hpe; [|done]. by rewrite (Hpq e Hpe) in He. }
    rewrite calls_of_app. unfold preparation. simpl.
    rewrite !Hq by done. destruct (run_only args); simpl; [done|].
    by rewrite Hq. }
  assert (∀ l, List.filter run_or_report
                 (map (λ f', ERun proj (configuration args) f' v args) l)
               = map (λ f', ERun proj (configuration args) f' v args) l) as Hruns.
  { induction l as [|x l IH]; [done|]. simpl. by rewrite IH. }
  split; [|split].
  - intros e Hf Hpre.
    destruct (run_phase_raises ext args proj w1 pre f post e Hbo Hfs)
      as (new & env' & E & Hnew); [apply Hpre | apply Hf |].
    subst r. rewrite Emain, E. simpl. split; [done|].
    unfold count, calls_of. rewrite calls_app, !calls_of_app, Hnew.
    rewrite !Hnone by (intros []; simpl; done || (intros; by rewrite ?orb_true_r)).
    split; [exists proj; by rewrite Hruns|]. simpl.
    assert (∀ l, List.filter is_run
                   (map (λ f', ERun proj (configuration args) f' v args) l)
                 = map (λ f', ERun proj (configuration args) f' v args) l) as ->.
    { induction l as [|x l IH]; [done|]. simpl. by rewrite IH. }
    assert (∀ l, List.filter is_report
                   (map (λ f', ERun proj (configuration args) f' v args) l)
                 = []) as ->.
    { induction l as [|x l IH]; [done|]. simpl. by rewrite IH. }
    by rewrite length_map.
  - intros Hrun Hrep.
    destruct (run_phase_returns ext args proj w1 Hbo) as (new & env' & E & Hnew);
      [intros; by apply Hrun | apply Hrep |].
    subst r. rewrite Emain, E. simpl. split; [done|]. exists proj.
    unfold calls_of. rewrite calls_app.
    rewrite calls_of_app, Hnone, Hnew, calls_of_app, Hruns by done. done.
  - intros g. apply run_values_are_discarded.
Qed.

Lemma lab_prepares ns channel_of run_result :
  prepares (lab ns channel_of run_result).
Proof. split; intros; apply quietly_succeeds. Qed.

Lemma run_that_raises_stops_the_matrix_witness :
  let args := lab_args ["net6.0"; "net7.0"] false false false None in
  let run_or_report e := is_run e || is_report e in
  (let r := __main (lab args lab_channel net60_raises) [] (start ∅) in
   r.1 = Raise (ModuleError "CalledProcessError" "dotnet run") ∧
   (∃ proj,
      calls_of run_or_report r.2 = [ERun proj "Release" "net6.0" true args]) ∧
   count is_run r.2 = 1%nat ∧
   count is_report r.2 = 0%nat) ∧
  (let r := __main (lab args lab_channel net60_fails) [] (start ∅) in
   r.1 = Return tt ∧
   ∃ proj,
     calls_of run_or_report r.2
     = [ERun proj "Release" "net6.0" true args;
        ERun proj "Release" "net7.0" true args;
        ERunScripts args true proj]) ∧
  __main (with_run_values (λ _ _, VInt 1)
            (lab args lab_channel (λ _, Return VNone))) [] (start ∅)
  = __main (lab args lab_channel (λ _, Return VNone)) [] (start ∅).
Proof.
  intros args run_or_report. split; [|split].
  - apply (proj1 (run_that_raises_stops_the_matrix
                    (lab args lab_channel net60_raises) [] args ∅
                    ["net6.0"; "net7.0"] ["6.0"; "7.0"] [] ["net7.0"] "net6.0"
                    eq_refl eq_refl eq_refl eq_refl eq_refl
                    (lab_prepares _ _ _) eq_refl)
             (ModuleError "CalledProcessError" "dotnet run")).
    + reflexivity.
    + intros proj f' Hin. by apply elem_of_nil in Hin.
  - apply (proj1 (proj2 (run_that_raises_stops_the_matrix
                           (lab args lab_channel net60_fails) [] args ∅
                           ["net6.0"; "net7.0"] ["6.0"; "7.0"] [] ["net7.0"]
                           "net6.0"
                           eq_refl eq_refl eq_refl eq_refl eq_refl
                           (lab_prepares _ _ _) eq_refl))).
    + intros proj f' Hin w.
      apply elem_of_cons in Hin as [-> | Hin]; [by eexists _, _|].
      apply list_elem_of_singleton in Hin as ->. by eexists _, _.
    + intros proj. apply quietly_succeeds.
  - apply (proj2 (proj2 (run_that_raises_stops_the_matrix
                           (lab args lab_channel (λ _, Return VNone)) [] args ∅
                           ["net6.0"; "net7.0"] ["6.0"; "7.0"] [] ["net7.0"]
                           "net6.0"
                           eq_refl eq_refl eq_refl eq_refl eq_refl
                           (lab_prepares _ _ _) eq_refl))).
Defined.

(** C5, as the specification has it, fails: the run for [net6.0] fails,
    [dotnet run] ending in [CalledProcessError]; the run for [net7.0] is
    not made and neither is the report call. *)
Lemma failed_run_for_net60_leaves_net70_out :
  let args := lab_args ["net6.0"; "net7.0"] false false false None in
  let proj := {| csproj_project := "MicroBenchmarks.csproj";
                 csproj_bin_directory := "artifacts" |} in
  let r := __main (lab args lab_channel net60_raises) [] (start ∅) in
  r.1 = Raise (ModuleError "CalledProcessError" "dotnet run") ∧
  calls_of is_run r.2 = [ERun proj "Release" "net6.0" true args] ∧
  count is_report r.2 = 0%nat.
Proof. intros args proj r. repeat split; vm_compute; reflexivity. Qed.

Lemma call_returns {A B} e (c : Collab A) (k : A → M B) w :
  succeeds c →
  ∃ a, (call e c ≫= k) w
       = k a {| trace := trace w ++ [(e, environ w)]; environ := (c w).2 |}.
Proof.
  intros Hc. destruct (Hc w) as (a & env' & E). exists a.
  unfold mbind, M_bind, call. by rewrite E.
Qed.

(** In run-only mode, with the command line valid and the called modules
    returning, [__main] enters its run phase in the world that the write
    of the environment variable, [dotnet.info] and the project
    constructor leave, in that order. *)
Lemma main_prepared_run_only ext argv args env tfms chs :
  parse_args ext argv = Return args →
  run_only args = true →
  missing_submission_name args = false →
  get_target_framework_monikers ext (frameworks args) = Return tfms →
  comprehension (get_channel ext) tfms = Return chs →
  prepares ext →
  ∃ proj w0,
    let v := negb (quiet args) in
    let ws := {| trace := trace w0
                   ++ [(EEnvironSet PYTHON_SCRIPT_TARGET_FRAMEWORKS (join ";" tfms),
                        environ w0)];
                 environ := <[PYTHON_SCRIPT_TARGET_FRAMEWORKS := join ";" tfms]>
                              (environ w0) |} in
    let wi := {| trace := trace ws ++ [(EDotnetInfo v, environ ws)];
                 environ := (dotnet_info ext v ws).2 |} in
    let wp := {| trace := trace wi
                   ++ [(ENewCSharpProject (csprojfile args) (bin_directory args),
                        environ wi)];
                 environ := (dotnet_CSharpProject ext (csprojfile args)
                               (bin_directory args) wi).2 |} in
    __main ext argv (start env) = run_phase ext args proj wp.
Proof.
  intros Hparse Hro Hvalid Htfms Hch Hp. unfold __main, __process_arguments.
  step_call (prep_runtime ext Hp).
  step_lift Hparse.
  step_call (prep_loggers ext Hp (negb (quiet args))).
  unfold missing_submission_name in Hvalid. rewrite Hvalid.
  step_lift Htfms.
  destruct (init_tools_returns ext (architecture args) (dotnet_version args) tfms
              (negb (quiet args)) chs
              {| trace := (trace (start env) ++ [(EValidateSupportedRuntime, environ (start env))])
                            ++ [(ESetupLoggers (negb (quiet args)), env0)];
                 environ := env1 |} Hch Hp) as (env2 & env3 & Einit).
  rewrite (bind_Return _ _ _ _ _ Einit). cbv beta.
  erewrite bind_Return by reflexivity. cbv beta.
  match goal with
  | |- context [ (call ?e ?c ≫= ?k) ?w ] =>
      destruct (call_returns e c k w (prep_info ext Hp (negb (quiet args))))
        as (ai & Ei); rewrite Ei; clear Ei; cbv beta
  end.
  match goal with
  | |- context [ (call ?e ?c ≫= ?k) ?w ] =>
      destruct (call_returns e c k w
                  (prep_project ext Hp (csprojfile args) (bin_directory args)))
        as (proj & Ep); rewrite Ep; clear Ep; cbv beta
  end.
  rewrite Hro. cbn [negb]. erewrite bind_Return by reflexivity. cbv beta.
  eexists proj, _. reflexivity.
Qed.

(** C10.  With both [--build-only] and [--run-only] set, the command
    line otherwise valid and every call returning, [__main] makes the
    preparation calls, among them the two installs and the write of the
    environment variable, makes no build, run or report call, and
    returns.  The write takes effect: the call that follows it,
    [dotnet.info], is made in the environment with the variable set to
    the joined monikers, and the invocation ends with the variable so set
    when [dotnet.info] and the project constructor leave it alone. *)
Theorem both_flags_provision_and_stop
    (ext : External) (argv : list string) (args : Namespace) (env : Environ)
    (tfms chs : list string) :
  parse_args ext argv = Return args →
  build_only args = true →
  run_only args = true →
  missing_submission_name args = false →
  get_target_framework_monikers ext (frameworks args) = Return tfms →
  comprehension (get_channel ext) tfms = Return chs →
  cooperative ext →
  let r := __main ext argv (start env) in
  let v := negb (quiet args) in
  r.1 = Return tt ∧
  calls r.2 = preparation args tfms chs ∧
  calls_of is_install r.2
  = [EDotnetInstall (architecture args) chs (dotnet_version args) v;
     EBenchviewInstall] ∧
  calls_of is_environ_set r.2
  = [EEnvironSet PYTHON_SCRIPT_TARGET_FRAMEWORKS (join ";" tfms)] ∧
  count is_build r.2 = 0%nat ∧
  count is_run r.2 = 0%nat ∧
  count is_report r.2 = 0%nat ∧
  (∃ pre e0 post,
     trace r.2
     = pre ++ (EEnvironSet PYTHON_SCRIPT_TARGET_FRAMEWORKS (join ";" tfms), e0)
           :: (EDotnetInfo v,
               <[PYTHON_SCRIPT_TARGET_FRAMEWORKS := join ";" tfms]> e0)
           :: post) ∧
  ((∀ v' w, (dotnet_info ext v' w).2 !! PYTHON_SCRIPT_TARGET_FRAMEWORKS
            = environ w !! PYTHON_SCRIPT_TARGET_FRAMEWORKS) →
   (∀ p b w, (dotnet_CSharpProject ext p b w).2 !! PYTHON_SCRIPT_TARGET_FRAMEWORKS
             = environ w !! PYTHON_SCRIPT_TARGET_FRAMEWORKS) →
   environ r.2 !! PYTHON_SCRIPT_TARGET_FRAMEWORKS = Some (join ";" tfms)).
Proof.
  intros Hparse Hbo Hro Hvalid Htfms Hch [Hp _ _] r v.
  destruct (main_prepared ext argv args env tfms chs Hparse Hvalid Htfms Hch Hp)
    as (proj & w1 & Emain & Ecalls).
  destruct (main_prepared_run_only ext argv args env tfms chs
              Hparse Hro Hvalid Htfms Hch Hp) as (proj' & w0 & Eworld).
  cbv zeta in Eworld. rewrite run_phase_build_only in Eworld by done.
  assert (r.1 = Return tt ∧ calls r.2 = preparation args tfms chs) as [Hr Hc].
  { subst r. rewrite Emain, run_phase_build_only by done. simpl.
    by rewrite Hro, app_nil_r in Ecalls. }
  split; [done|]. split; [done|].
  unfold count, calls_of. rewrite Hc.
  do 5 (split; [done|]). subst r. rewrite Eworld. cbn [snd trace environ]. split.
  - exists (trace w0), (environ w0),
      [(ENewCSharpProject (csprojfile args) (bin_directory args),
        (dotnet_info ext (negb (quiet args))
           {| trace := trace w0
                ++ [(EEnvironSet PYTHON_SCRIPT_TARGET_FRAMEWORKS (join ";" tfms),
                     environ w0)];
              environ := <[PYTHON_SCRIPT_TARGET_FRAMEWORKS := join ";" tfms]>
                           (environ w0) |}).2)].
    by rewrite <- !app_assoc.
  - intros Hinfo Hproj. rewrite Hproj. cbn [environ]. rewrite Hinfo.
    cbn [environ]. apply lookup_insert_eq.
Qed.

Lemma both_flags_provision_and_stop_witness :
  let args := lab_args ["net6.0"; "net7.0"] true true false None in
  let r := __main (lab args lab_channel (λ _, Return VNone))
             ["--build-only"; "--run-only"] (start ∅) in
  r.1 = Return tt ∧
  calls r.2 = preparation args ["net6.0"; "net7.0"] ["6.0"; "7.0"] ∧
  calls_of is_install r.2
  = [EDotnetInstall "x64" ["6.0"; "7.0"] None true; EBenchviewInstall] ∧
  calls_of is_environ_set r.2
  = [EEnvironSet PYTHON_SCRIPT_TARGET_FRAMEWORKS "net6.0;net7.0"] ∧
  count is_build r.2 = 0%nat ∧
  count is_run r.2 = 0%nat ∧
  count is_report r.2 = 0%nat ∧
  (∃ pre e0 post,
     trace r.2
     = pre ++ (EEnvironSet PYTHON_SCRIPT_TARGET_FRAMEWORKS "net6.0;net7.0", e0)
           :: (EDotnetInfo true,
               <[PYTHON_SCRIPT_TARGET_FRAMEWORKS := "net6.0;net7.0"]> e0)
           :: post) ∧
  environ r.2 !! PYTHON_SCRIPT_TARGET_FRAMEWORKS = Some "net6.0;net7.0".
Proof.
  intros args r.
  destruct (both_flags_provision_and_stop
              (lab args lab_channel (λ _, Return VNone))
              ["--build-only"; "--run-only"] args ∅
              ["net6.0"; "net7.0"] ["6.0"; "7.0"]
              eq_refl eq_refl eq_refl eq_refl eq_refl eq_refl)
    as (H1 & H2 & H3 & H4 & H5 & H6 & H7 & H8 & H9).
  { repeat split; intros; apply quietly_succeeds. }
  do 7 (split; [assumption|]). split; [exact H8|].
  apply H9; reflexivity.
Defined.

(** C2, as amended.  With both [--build-only] and [--run-only] set, no
    build, run or report call is made, whatever the called modules do.
    The flags are not a reason to reject: once the runtime check and the
    logger setup return, the command line is otherwise valid and the
    monikers have channels, the toolchain install is called. *)
Theorem both_flags_skip_build_and_run_not_install
    (ext : External) (argv : list string) (args : Namespace) (env : Environ) :
  parse_args ext argv = Return args →
  build_only args = true →
  run_only args = true →
  let r := __main ext argv (start env) in
  let v := negb (quiet args) in
  count is_build r.2 = 0%nat ∧
  count is_run r.2 = 0%nat ∧
  count is_report r.2 = 0%nat ∧
  (∀ tfms chs,
     succeeds (validate_supported_runtime ext) →
     succeeds (setup_loggers ext v) →
     missing_submission_name args = false →
     get_target_framework_monikers ext (frameworks args) = Return tfms →
     comprehension (get_channel ext) tfms = Return chs →
     EDotnetInstall (architecture args) chs (dotnet_version args) v
       ∈ calls r.2).
Proof.
  intros Hparse Hbo Hro r v.
  split; [|split; [|split]];
    try (apply main_never_calls with (args := args); [done|];
         intros [] He; simpl in *; try done; destruct He; congruence).
  intros tfms chs Hrt Hlog Hvalid Htfms Hch. subst r.
  unfold __main, __process_arguments.
  step_call Hrt. step_lift Hparse. step_call Hlog.
  unfold missing_submission_name in Hvalid. rewrite Hvalid.
  step_lift Htfms.
  match goal with
  | |- context [ (init_tools ?e ?a ?ver ?t ?b ≫= ?k) ?w ] =>
      pose proof (init_tools_calls e a ver t b chs w Hch) as (rest & E & _);
      unfold mbind at 1; unfold M_bind at 1;
      destruct (init_tools e a ver t b w) as [[[]|ex] w3]; simpl in E;
      [assert (emits (λ _, True) (k tt)) as Hk
         by (emits_auto; try done;
             repeat match goal with
                    | |- emits _ (if ?c then _ else _) => destruct c
                    end; emits_auto; done);
       destruct (Hk w3) as (new & Enew & _);
       unfold calls; rewrite Enew, fmap_app; fold (calls w3)|]
  end.
  - rewrite E. apply elem_of_app. left. do 3 apply list_elem_of_further.
    apply list_elem_of_here.
  - simpl. rewrite E. do 3 apply list_elem_of_further. apply list_elem_of_here.
Qed.

Lemma both_flags_skip_build_and_run_not_install_witness :
  let args := lab_args ["net6.0"] true true false None in
  let r := __main (lab args lab_channel (λ _, Return VNone))
             ["--build-only"; "--run-only"] (start ∅) in
  count is_build r.2 = 0%nat ∧
  count is_run r.2 = 0%nat ∧
  count is_report r.2 = 0%nat ∧
  EDotnetInstall "x64" ["6.0"] None true ∈ calls r.2.
Proof.
  intros args r.
  destruct (both_flags_skip_build_and_run_not_install
              (lab args lab_channel (λ _, Return VNone))
              ["--build-only"; "--run-only"] args ∅ eq_refl eq_refl eq_refl)
    as (Hb & Hr & Hp & Hi).
  split; [exact Hb|]. split; [exact Hr|]. split; [exact Hp|].
  apply (Hi ["net6.0"] ["6.0"]); try reflexivity; apply quietly_succeeds.
Defined.

(** C2, as the specification has it, fails: with both flags set and the
    called modules returning, [__main] returns and both installs were
    made. *)
Lemma both_flags_are_not_rejected :
  let args := lab_args ["net6.0"] true true false None in
  let r := __main (lab args lab_channel (λ _, Return VNone))
             ["--build-only"; "--run-only"] (start ∅) in
  r.1 = Return tt ∧
  calls_of is_install r.2
  = [EDotnetInstall "x64" ["6.0"] None true; EBenchviewInstall] ∧
  ¬ rejected_before_provisioning r.
Proof.
  intros args r. split; [|split].
  - vm_compute. reflexivity.
  - vm_compute. reflexivity.
  - intros [[e He] _]. vm_compute in He. discriminate.
Qed.

(** C4.  When BenchView data is asked for and the submission name is
    absent or empty, [__main] ends in an exception without a single call
    to the installers, the builder, the runner or the reporter; the
    exception is the [RuntimeError] that asks for
    [--benchview-submission-name] whenever the runtime check and the
    logger setup, which come first, return. *)
Theorem report_without_submission_name_is_refused
    (ext : External) (argv : list string) (args : Namespace) (env : Environ) :
  parse_args ext argv = Return args →
  generate_benchview_data args = true →
  benchview_submission_name args = None
    ∨ benchview_submission_name args = Some EmptyString →
  let r := __main ext argv (start env) in
  (∃ e, r.1 = Raise e) ∧
  count is_install r.2 = 0%nat ∧
  count is_build r.2 = 0%nat ∧
  count is_run r.2 = 0%nat ∧
  count is_report r.2 = 0%nat ∧
  (succeeds (validate_supported_runtime ext) →
   succeeds (setup_loggers ext (negb (quiet args))) →
   r.1 = Raise (RuntimeError submission_name_required)).
Proof.
  intros Hparse Hgen Hname r.
  assert (missing_submission_name args = true) as Hmiss.
  { unfold missing_submission_name. rewrite Hgen.
    by destruct Hname as [-> | ->]. }
  split; [|split; [|split; [|split; [|split]]]];
    try (apply main_never_calls with (args := args); [done|];
         intros [] He; simpl in *; try done; destruct_and?; congruence).
  - subst r. unfold __main, __process_arguments, mbind, M_bind, call, lift, raise.
    rewrite Hparse. simpl.
    destruct (validate_supported_runtime ext _) as [[x|e] env1]; simpl; [|eauto].
    destruct (setup_loggers ext _ _) as [[y|e] env2]; simpl; [|eauto].
    unfold missing_submission_name in Hmiss. rewrite Hmiss. simpl. eauto.
  - intros Hrt Hlog. subst r. unfold __main, __process_arguments.
    step_call Hrt. step_lift Hparse. step_call Hlog.
    unfold missing_submission_name in Hmiss. rewrite Hmiss. done.
Qed.

Lemma report_without_submission_name_is_refused_witness :
  let args := lab_args ["net6.0"] false false true None in
  let r := __main (lab args lab_channel (λ _, Return VNone))
             ["--generate-benchview-data"] (start ∅) in
  (∃ e, r.1 = Raise e) ∧
  count is_install r.2 = 0%nat ∧
  count is_build r.2 = 0%nat ∧
  count is_run r.2 = 0%nat ∧
  count is_report r.2 = 0%nat ∧
  r.1 = Raise (RuntimeError submission_name_required).
Proof.
  intros args r.
  destruct (report_without_submission_name_is_refused
              (lab args lab_channel (λ _, Return VNone))
              ["--generate-benchview-data"] args ∅ eq_refl eq_refl
              (or_introl eq_refl))
    as (He & Hi & Hb & Hr & Hp & Hex).
  repeat (split; [assumption|]).
  apply Hex; apply quietly_succeeds.
Defined.




(** ** The environment variable *)

Lemma bind_unfold {A B} (m : M A) (k : A → M B) w :
  (m ≫= k) w
  = match m w with
    | (Return a, w') => k a w'
    | (Raise e, w') => (Raise e, w')
    end.
Proof. reflexivity. Qed.

Lemma bind_call {A B} e (c : Collab A) (k : A → M B) w :
  (call e c ≫= k) w
  = match c w with
    | (Return a, env') =>
        k a {| trace := trace w ++ [(e, environ w)]; environ := env' |}
    | (Raise ex, env') =>
        (Raise ex, {| trace := trace w ++ [(e, environ w)]; environ := env' |})
    end.
Proof. unfold mbind, M_bind, call. by destruct (c w) as [[a|ex] env']. Qed.

Lemma bind_lift {A B} (o : Outcome A) (k : A → M B) w :
  (lift o ≫= k) w
  = match o with Return a => k a w | Raise e => (Raise e, w) end.
Proof. by destruct o. Qed.

Lemma run_phase_emits (P : Event → Prop) ext args proj :
  (∀ f, P (ERun proj (configuration args) f (negb (quiet args)) args)) →
  P (ERunScripts args (negb (quiet args)) proj) →
  emits P (run_phase ext args proj).
Proof.
  intros Hr Hp. unfold run_phase. cbv zeta.
  destruct (negb (build_only args)); emits_auto; auto.
Qed.

Ltac quiet_calls :=
  unfold calls; cbn [trace environ fst snd];
  repeat match goal with H : trace _ = _ |- _ => rewrite H; clear H end;
  rewrite ?fmap_app, ?fmap_cons; simpl;
  repeat first
    [ apply Forall_nil_2
    | apply Forall_cons_2; [done|]
    | apply Forall_app_2
    | eapply Forall_impl; [eassumption | by intros ? []]
    | eassumption ].

Lemma build_and_run_trace ext args tfms proj w :
  let r := build_and_run ext args tfms proj w in
  ∃ post,
    Forall quiet_call post.*1 ∧
    (trace r.2 = trace w ++ post ∨
     trace r.2
     = trace w ++ (EBuild proj (configuration args) tfms (incremental args)
                     (negb (quiet args)), environ w) :: post).
Proof.
  assert (emits quiet_call (run_phase ext args proj)) as Hrun
    by (by apply run_phase_emits).
  unfold build_and_run. cbv zeta. rewrite bind_unfold.
  destruct (run_only args); cbn [negb].
  - destruct (Hrun w) as (post & E & F). exists post. split; [done|]. by left.
  - rewrite bind_call.
    destruct (micro_benchmarks_build ext _ _ _ _ _ w) as [[x|ex] env1].
    + cbv beta iota delta [mret M_ret].
      match goal with
      | |- context [ run_phase ext args proj ?w' ] =>
          destruct (Hrun w') as (post & E & F)
      end.
      exists post. split; [done|]. right.
      cbn [trace environ fst snd] in *.
      rewrite E, <- app_assoc. done.
    + exists []. split; [constructor|]. right. done.
Qed.

(** Every invocation either never reaches the build, or has made, in this
    order, the write of the environment variable, [dotnet.info], the
    project object and the build, with no other build or write before or
    after. *)
Lemma main_shape ext argv env :
  let r := __main ext argv (start env) in
  Forall (λ e, is_build e = false) (calls r.2) ∨
  ∃ head e0 v p b proj conf tfms incr post,
    let w1 := {| trace := head ++ [(EEnvironSet PYTHON_SCRIPT_TARGET_FRAMEWORKS (join ";" tfms), e0)];
                 environ := <[PYTHON_SCRIPT_TARGET_FRAMEWORKS := join ";" tfms]> e0 |} in
    let w2 := {| trace := trace w1 ++ [(EDotnetInfo v, environ w1)];
                 environ := (dotnet_info ext v w1).2 |} in
    trace r.2
    = (trace w2 ++ [(ENewCSharpProject p b, environ w2)])
      ++ (EBuild proj conf tfms incr v, (dotnet_CSharpProject ext p b w2).2) :: post ∧
    Forall quiet_call head.*1 ∧ Forall quiet_call post.*1.
Proof.
  intros r. subst r. unfold __main, __process_arguments.
  rewrite bind_call.
  destruct (validate_supported_runtime ext (start env)) as [[a|ex] env1];
    [|left; quiet_calls].
  rewrite bind_lift.
  destruct (parse_args ext argv) as [args|ex]; [|left; quiet_calls].
  cbv zeta. rewrite bind_call.
  destruct (setup_loggers ext _ _) as [[a1|ex] env2]; [|left; quiet_calls].
  destruct (generate_benchview_data args && _); [left; quiet_calls|].
  rewrite bind_lift.
  destruct (get_target_framework_monikers ext _) as [tfms|ex];
    [|left; quiet_calls].
  rewrite bind_unfold.
  match goal with
  | |- context [ init_tools ?e ?a ?ver ?t ?b ?w ] =>
      let Hi := fresh in
      assert (emits quiet_call (init_tools e a ver t b)) as Hi
        by (by apply init_tools_emits);
      destruct (Hi w) as (new & En & Fn); clear Hi;
      destruct (init_tools e a ver t b w) as [[[]|ex] w3]
  end.
  all: simpl in En.
  2: { left. quiet_calls. }
  erewrite bind_Return by reflexivity. cbv beta.
  rewrite bind_call.
  match goal with
  | |- context [ dotnet_info ext ?v ?w ] =>
      destruct (dotnet_info ext v w) as [[a2|ex] env4] eqn:Einfo
  end.
  2: { left. quiet_calls. }
  rewrite bind_call.
  match goal with
  | |- context [ dotnet_CSharpProject ext ?p ?b ?w ] =>
      destruct (dotnet_CSharpProject ext p b w) as [[proj|ex] env5] eqn:Eproj
  end.
  2: { left. quiet_calls. }
  cbn [trace environ] in *.
  match goal with
  | |- context [ (?m ≫= ?k) ?w ] =>
      change ((m ≫= k) w) with (build_and_run ext args tfms proj w);
      destruct (build_and_run_trace ext args tfms proj w) as (post & F & [E | E])
  end.
  - left. unfold calls. rewrite E. clear E. quiet_calls.
  - right. exists (trace w3), (environ w3), (negb (quiet args)),
      (csprojfile args), (bin_directory args), proj, (configuration args),
      tfms, (incremental args), post.
    cbv zeta. cbn [trace environ] in *. rewrite E, Einfo. cbn [snd]. rewrite Eproj.
    split; [done|]. split; [|done]. rewrite En. quiet_calls.
Qed.

Lemma split_at_build (l1 l2 pre post : list (Event * Environ)) x y :
  l1 ++ x :: l2 = pre ++ y :: post →
  Forall (λ e, is_build e = false) l1.*1 →
  Forall (λ e, is_build e = false) l2.*1 →
  is_build y.1 = true →
  pre = l1 ∧ y = x ∧ post = l2.
Proof.
  revert pre. induction l1 as [|a l1 IH]; intros [|p pre] E F1 F2 Hy;
    simpl in E; injection E as -> E.
  - by subst.
  - exfalso. subst l2. rewrite fmap_app, fmap_cons in F2.
    apply Forall_app in F2 as [_ F2]. apply Forall_cons in F2 as [F2 _].
    congruence.
  - exfalso. rewrite fmap_cons in F1. apply Forall_cons in F1 as [F1 _].
    congruence.
  - rewrite fmap_cons in F1. apply Forall_cons in F1 as [_ F1].
    destruct (IH pre E F1 F2 Hy) as (-> & -> & ->). done.
Qed.

(** C8.  Take any invocation and any build call in its record.  Before
    that call [__main] wrote the environment exactly once: it set
    [PYTHON_SCRIPT_TARGET_FRAMEWORKS] to the monikers the build is given,
    joined by semicolons.  It writes nothing to the environment after.
    The build call is made in an environment that holds that value,
    provided [dotnet.info] and the [CSharpProject] constructor, the two
    calls in between, leave the variable as they find it. *)
Theorem environ_is_set_before_the_build
    (ext : External) (argv : list string) (env : Environ)
    (pre post : list (Event * Environ)) (proj : CSharpProject)
    (conf incr : string) (tfms : list string) (v : bool) (env_b : Environ) :
  let r := __main ext argv (start env) in
  trace r.2 = pre ++ (EBuild proj conf tfms incr v, env_b) :: post →
  List.filter is_environ_set pre.*1
  = [EEnvironSet PYTHON_SCRIPT_TARGET_FRAMEWORKS (join ";" tfms)] ∧
  List.filter is_environ_set post.*1 = [] ∧
  ((∀ v' w, (dotnet_info ext v' w).2 !! PYTHON_SCRIPT_TARGET_FRAMEWORKS
            = environ w !! PYTHON_SCRIPT_TARGET_FRAMEWORKS) →
   (∀ p b w, (dotnet_CSharpProject ext p b w).2 !! PYTHON_SCRIPT_TARGET_FRAMEWORKS
             = environ w !! PYTHON_SCRIPT_TARGET_FRAMEWORKS) →
   env_b !! PYTHON_SCRIPT_TARGET_FRAMEWORKS = Some (join ";" tfms)).
Proof.
  intros r Htrace.
  destruct (main_shape ext argv env) as [F | Hshape]; fold r in F || fold r in Hshape.
  - exfalso. unfold calls in F. rewrite Htrace, fmap_app, fmap_cons in F.
    apply Forall_app in F as [_ F]. apply Forall_cons in F as [F _]. done.
  - destruct Hshape
      as (head & e0 & v' & p & b & proj' & conf' & tfms' & incr' & post'
          & E & Fh & Fp).
    cbv zeta in E. cbn [trace environ] in E. rewrite Htrace in E.
    symmetry in E. apply split_at_build in E as (-> & [= -> -> -> -> -> ->] & ->).
    + assert (∀ l, Forall quiet_call l → List.filter is_environ_set l = []) as Hq.
      { induction 1 as [|x l [_ Hx] _ IH]; [done|]. simpl. by rewrite Hx. }
      split; [|split].
      * rewrite !fmap_app, !calls_of_app, (Hq _ Fh). done.
      * by apply Hq.
      * intros Hinfo Hproj. rewrite Hproj. cbn [environ]. rewrite Hinfo.
        cbn [environ]. apply lookup_insert_eq.
    + rewrite !fmap_app. repeat apply Forall_app_2;
        try (repeat constructor; done).
      eapply Forall_impl; [exact Fh | by intros ? []].
    + eapply Forall_impl; [exact Fp | by intros ? []].
    + done.
Qed.

Lemma environ_is_set_before_the_build_witness :
  let args := lab_args ["net6.0"; "net7.0"] false false false None in
  let r := __main (lab args lab_channel (λ _, Return VNone)) [] (start ∅) in
  let env_b : Environ := <[PYTHON_SCRIPT_TARGET_FRAMEWORKS := "net6.0;net7.0"]> ∅ in
  (∃ proj,
     trace r.2 !! 8%nat
     = Some (EBuild proj "Release" ["net6.0"; "net7.0"] "yes" true, env_b)) ∧
  List.filter is_environ_set (take 8 (trace r.2)).*1
  = [EEnvironSet PYTHON_SCRIPT_TARGET_FRAMEWORKS "net6.0;net7.0"] ∧
  List.filter is_environ_set (drop 9 (trace r.2)).*1 = [] ∧
  env_b !! PYTHON_SCRIPT_TARGET_FRAMEWORKS = Some "net6.0;net7.0".
Proof.
  intros args r env_b.
  split; [eexists; vm_compute; reflexivity|].
  assert (trace r.2
          = take 8 (trace r.2)
            ++ (EBuild {| csproj_project := "MicroBenchmarks.csproj";
                          csproj_bin_directory := "artifacts" |}
                  "Release" ["net6.0"; "net7.0"] "yes" true, env_b)
               :: drop 9 (trace r.2)) as E by (vm_compute; reflexivity).
  destruct (environ_is_set_before_the_build
              (lab args lab_channel (λ _, Return VNone)) [] ∅ _ _ _ _ _ _ _ _ E)
    as (H1 & H2 & H3).
  split; [exact H1|]. split; [exact H2|]. apply H3; reflexivity.
Defined.

(** ** The order of the calls *)

Section Follows.

Lemma follows_ret {A} (a : A) : follows (mret a) (λ _, []).
Proof. intros w. exists no_project, []. by rewrite app_nil_r. Qed.

Lemma follows_raise {A} e F : follows (@raise A e) F.
Proof.
  intros w. exists no_project, []. rewrite app_nil_r.
  split; [done|]. split; [apply prefix_nil | done].
Qed.

Lemma follows_call {A} e (c : Collab A) : follows (call e c) (λ _, [e]).
Proof.
  intros w. exists no_project, [(e, environ w)]. unfold call.
  by destruct (c w) as [o env'].
Qed.

Lemma follows_environ_set k v :
  follows (environ_set k v) (λ _, [EEnvironSet k v]).
Proof. intros w. by exists no_project, [(EEnvironSet k v, environ w)]. Qed.

Lemma follows_logger_info msg :
  follows (logger_info msg) (λ _, [ELogInfo msg]).
Proof. intros w. by exists no_project, [(ELogInfo msg, environ w)]. Qed.

Lemma follows_bind {A B} (m : M A) (k : A → M B) l F :
  follows m (λ _, l) → (∀ a, follows (k a) F) →
  follows (m ≫= k) (λ proj, l ++ F proj).
Proof.
  intros Hm Hk w. destruct (Hm w) as (proj1 & new1 & E1 & P1 & R1).
  unfold mbind, M_bind. destruct (m w) as [[a|e] w1]; simpl in *.
  - destruct (Hk a w1) as (proj & new2 & E2 & P2 & R2).
    exists proj, (new1 ++ new2). rewrite E2, E1, <- app_assoc, fmap_app.
    rewrite (R1 eq_refl). split; [done|].
    split; [by apply prefix_app | intros H; by rewrite (R2 H)].
  - exists proj1, new1. split; [done|]. split; [|done].
    by apply prefix_app_r.
Qed.

Lemma follows_bind_lift {A B} (o : Outcome A) (k : A → M B) F :
  (∀ a, o = Return a → follows (k a) F) → follows (lift o ≫= k) F.
Proof.
  intros Hk w. unfold mbind, M_bind, lift. destruct o as [a|e].
  - by apply Hk.
  - exists no_project, []. rewrite app_nil_r.
    split; [done|]. split; [apply prefix_nil | done].
Qed.

Lemma follows_bind_project {B} e (c : Collab CSharpProject)
    (k : CSharpProject → M B) (G : CSharpProject → list Event) :
  (∀ proj, follows (k proj) (λ _, G proj)) →
  follows (call e c ≫= k) (λ proj, e :: G proj).
Proof.
  intros Hk w. unfold mbind, M_bind, call.
  destruct (c w) as [[proj|ex] env']; simpl.
  - destruct (Hk proj {| trace := trace w ++ [(e, environ w)]; environ := env' |})
      as (_ & new & E & P & R).
    exists proj, ((e, environ w) :: new). simpl in E.
    rewrite E, <- app_assoc. split; [done|]. rewrite fmap_cons. simpl.
    split; [by apply prefix_cons | intros H; by rewrite (R H)].
  - exists no_project, [(e, environ w)]. split; [done|]. split; [|done].
    apply prefix_cons, prefix_nil.
Qed.

Lemma follows_for_each {A B} (ev : A → Event) (body : A → M B) xs :
  (∀ x, follows (body x) (λ _, [ev x])) →
  follows (for_each xs body) (λ _, map ev xs).
Proof.
  intros Hb. induction xs as [|x xs IH]; simpl.
  - apply follows_ret.
  - apply (follows_bind _ _ [ev x] (λ _, map ev xs)); [apply Hb | intros _; apply IH].
Qed.

End Follows.

Lemma init_tools_follows ext a v tfms verbose chs :
  comprehension (get_channel ext) tfms = Return chs →
  follows (init_tools ext a v tfms verbose)
    (λ _, [ELogInfo "Installing tools."; EDotnetInstall a chs v verbose;
           EBenchviewInstall]).
Proof.
  intros Hch. unfold init_tools.
  apply (follows_bind _ _ [_] (λ _, [_; _])); [apply follows_logger_info | intros _].
  apply follows_bind_lift. intros chs' E. rewrite Hch in E. injection E as <-.
  apply (follows_bind _ _ [_] (λ _, [_])); [apply follows_call | intros _].
  apply (follows_bind _ _ [_] (λ _, [])); [apply follows_call | intros _].
  apply follows_ret.
Qed.

Lemma run_phase_follows ext args proj :
  follows (run_phase ext args proj)
    (λ _, if build_only args then []
          else map (λ f, ERun proj (configuration args) f (negb (quiet args)) args)
                 (frameworks args)
               ++ [ERunScripts args (negb (quiet args)) proj]).
Proof.
  unfold run_phase. cbv zeta. destruct (build_only args); simpl.
  - apply follows_ret.
  - apply (follows_bind _ _ _ (λ _, [_])).
    + apply (follows_for_each
               (λ f, ERun proj (configuration args) f (negb (quiet args)) args)).
      intros f. apply follows_call.
    + intros _. apply (follows_bind _ _ [_] (λ _, [])); [apply follows_call|].
      intros _. apply follows_ret.
Qed.

Lemma follows_ext {A} (m : M A) F G :
  follows m F → (∀ proj, F proj = G proj) → follows m G.
Proof.
  intros Hm HFG w. destruct (Hm w) as (proj & new & E & P & R).
  exists proj, new. by rewrite <- HFG.
Qed.

Lemma main_follows ext argv args tfms chs :
  parse_args ext argv = Return args →
  get_target_framework_monikers ext (frameworks args) = Return tfms →
  comprehension (get_channel ext) tfms = Return chs →
  follows (__main ext argv) (script args tfms chs).
Proof.
  intros Hparse Htfms Hch. unfold __main, __process_arguments. rewrite Hparse.
  eapply follows_ext.
  - eapply follows_bind; [apply follows_call | intros _].
    apply follows_bind_lift. intros ? [= <-]. cbv zeta.
    eapply follows_bind; [apply follows_call | intros _].
    destruct (generate_benchview_data args && _); [apply follows_raise|].
    apply follows_bind_lift. intros tfms' E. rewrite Htfms in E.
    injection E as <-.
    eapply follows_bind; [exact (init_tools_follows _ _ _ _ _ _ Hch) | intros _].
    eapply follows_bind; [apply follows_environ_set | intros _].
    eapply follows_bind; [apply follows_call | intros _].
    apply follows_bind_project. intros proj.
    apply (follows_bind _ _
             (if run_only args then []
              else [EBuild proj (configuration args) tfms (incremental args)
                      (negb (quiet args))])
             (λ _, if build_only args then []
                   else map (λ f, ERun proj (configuration args) f
                                    (negb (quiet args)) args) (frameworks args)
                        ++ [ERunScripts args (negb (quiet args)) proj])).
    + destruct (run_only args); simpl; [apply follows_ret|].
      apply (follows_bind _ _ [_] (λ _, [])); [apply follows_call | intros _].
      apply follows_ret.
    + intros _. apply run_phase_follows.
  - intros proj. reflexivity.
Qed.

(** X1.  Whatever the called modules do, the calls of an invocation are
    an initial segment of the script: preparation, then the build unless
    run-only, then unless build-only one run for each framework in order
    and the report.  When [__main] returns the calls are the whole
    script. *)
Theorem calls_follow_the_script
    (ext : External) (argv : list string) (args : Namespace) (env : Environ)
    (tfms chs : list string) :
  parse_args ext argv = Return args →
  get_target_framework_monikers ext (frameworks args) = Return tfms →
  comprehension (get_channel ext) tfms = Return chs →
  let r := __main ext argv (start env) in
  ∃ proj,
    calls r.2 `prefix_of` script args tfms chs proj ∧
    (r.1 = Return tt → calls r.2 = script args tfms chs proj).
Proof.
  intros Hparse Htfms Hch r.
  destruct (main_follows ext argv args tfms chs Hparse Htfms Hch (start env))
    as (proj & new & E & P & R).
  exists proj. unfold calls. fold r in E, R. rewrite E. simpl.
  split; [done|]. intros Hr. apply R. by rewrite Hr.
Qed.

Lemma prepares_provisions ext : prepares ext → provisions ext.
Proof. intros []. by split. Qed.

Lemma main_provisioned ext argv args env tfms chs :
  parse_args ext argv = Return args →
  missing_submission_name args = false →
  get_target_framework_monikers ext (frameworks args) = Return tfms →
  comprehension (get_channel ext) tfms = Return chs →
  provisions ext →
  ∃ proj w1,
    __main ext argv (start env) = build_and_run ext args tfms proj w1 ∧
    calls w1 = preparation args tfms chs.
Proof.
  intros Hparse Hvalid Htfms Hch Hp. unfold __main, __process_arguments.
  step_call (prov_runtime ext Hp).
  step_lift Hparse.
  step_call (prov_loggers ext Hp (negb (quiet args))).
  unfold missing_submission_name in Hvalid. rewrite Hvalid.
  step_lift Htfms.
  unfold init_tools.
  rewrite (bind_unfold (logger_info _ ≫= _)).
  erewrite (bind_Return (logger_info _)) by reflexivity. cbv beta.
  step_lift Hch.
  step_call (prov_dotnet ext Hp (architecture args) chs (dotnet_version args)
               (negb (quiet args))).
  step_call (prov_benchview ext Hp).
  cbv beta iota delta [mret M_ret].
  erewrite bind_Return by reflexivity. cbv beta.
  step_call (prov_info ext Hp (negb (quiet args))).
  step_call (prov_project ext Hp (csprojfile args) (bin_directory args)).
  eexists _, _. split; [reflexivity|]. unfold calls. simpl. reflexivity.
Qed.

Lemma build_and_run_returns ext args tfms proj w :
  (∀ w', ∃ a env', micro_benchmarks_build ext proj (configuration args) tfms
                     (incremental args) (negb (quiet args)) w' = (Return a, env')) →
  (∀ f, succeeds (micro_benchmarks_run ext proj (configuration args) f
                    (negb (quiet args)) args)) →
  succeeds (benchview_run_scripts ext args (negb (quiet args)) proj) →
  ∃ new env',
    build_and_run ext args tfms proj w
    = (Return tt, {| trace := trace w ++ new; environ := env' |}) ∧
    new.*1
    = (if run_only args then []
       else [EBuild proj (configuration args) tfms (incremental args)
               (negb (quiet args))])
      ++ (if build_only args then []
          else map (λ f, ERun proj (configuration args) f (negb (quiet args)) args)
                 (frameworks args)
               ++ [ERunScripts args (negb (quiet args)) proj]).
Proof.
  intros Hb Hrun Hrep. unfold build_and_run. cbv zeta.
  assert (∀ w1, ∃ new env',
            run_phase ext args proj w1
            = (Return tt, {| trace := trace w1 ++ new; environ := env' |}) ∧
            new.*1
            = (if build_only args then []
               else map (λ f, ERun proj (configuration args) f
                                (negb (quiet args)) args) (frameworks args)
                    ++ [ERunScripts args (negb (quiet args)) proj])) as Hphase.
  { intros w1. destruct (build_only args) eqn:Hbo.
    - exists [], (environ w1). rewrite run_phase_build_only, app_nil_r by done.
      by destruct w1.
    - apply run_phase_returns; [done | intros; apply Hrun | done]. }
  destruct (run_only args); cbn [negb].
  - erewrite bind_Return by reflexivity. apply Hphase.
  - rewrite bind_unfold.
    destruct (call_succeeds
                (EBuild proj (configuration args) tfms (incremental args)
                   (negb (quiet args)))
                (micro_benchmarks_build ext proj (configuration args) tfms
                   (incremental args) (negb (quiet args))) w Hb)
      as (a & env1 & E).
    rewrite (bind_Return _ _ _ _ _ E). cbv beta iota delta [mret M_ret].
    destruct (Hphase {| trace := trace w ++
                          [(EBuild proj (configuration args) tfms
                              (incremental args) (negb (quiet args)), environ w)];
                        environ := env1 |}) as (new & env' & E' & Hnew).
    rewrite E'. cbn [trace]. eexists _, _. rewrite <- app_assoc.
    split; [reflexivity|]. rewrite fmap_app, Hnew. done.
Qed.

(** X2.  With the command line valid and every call returning, whatever
    the mode and the list of frameworks, [__main] returns and its calls
    are the whole script: installs and build are given the translated
    monikers, the runs go over the frameworks as asked for. *)
Theorem cooperative_run_makes_the_whole_script
    (ext : External) (argv : list string) (args : Namespace) (env : Environ)
    (tfms chs : list string) :
  parse_args ext argv = Return args →
  missing_submission_name args = false →
  get_target_framework_monikers ext (frameworks args) = Return tfms →
  comprehension (get_channel ext) tfms = Return chs →
  cooperative ext →
  let r := __main ext argv (start env) in
  r.1 = Return tt ∧ ∃ proj, calls r.2 = script args tfms chs proj.
Proof.
  intros Hparse Hvalid Htfms Hch [Hp Hrun Hrep] r.
  destruct (main_provisioned ext argv args env tfms chs Hparse Hvalid Htfms Hch
              (prepares_provisions ext Hp)) as (proj & w1 & Emain & Ecalls).
  destruct (build_and_run_returns ext args tfms proj w1)
    as (new & env' & E & Hnew);
    [apply (prep_build ext Hp) | intros; apply Hrun | apply Hrep |].
  subst r. rewrite Emain, E. simpl. split; [done|]. exists proj.
  rewrite calls_app, Ecalls, Hnew. done.
Qed.

(** X3.  Whatever the called modules do: with [--build-only] no run and
    no report call is made, with [--run-only] no build call. *)
Theorem mode_flags_gate_their_phases
    (ext : External) (argv : list string) (args : Namespace) (env : Environ) :
  parse_args ext argv = Return args →
  let r := __main ext argv (start env) in
  (build_only args = true → count is_run r.2 = 0%nat ∧ count is_report r.2 = 0%nat) ∧
  (run_only args = true → count is_build r.2 = 0%nat).
Proof.
  intros Hparse r. split; [intros Hbo; split | intros Hro];
    (apply main_never_calls with (args := args); [done|];
     intros [] He; simpl in *; try done; destruct He; congruence).
Qed.

Lemma prefix_before (P : Event → bool) (l1 t pre rest : list Event) e :
  l1 ++ t = pre ++ e :: rest →
  Forall (λ x, P x = false) l1 → P e = true →
  l1 `prefix_of` pre.
Proof.
  revert pre. induction l1 as [|a l1 IH]; intros pre E F He.
  - apply prefix_nil.
  - apply Forall_cons in F as [Ha F]. destruct pre as [|p pre]; simpl in E.
    + injection E as -> _. congruence.
    + injection E as -> E. apply prefix_cons. by eapply IH.
Qed.

(** X4.  Whatever the called modules do, a build, a run or a report call
    is only made after the whole preparation: the runtime check, the
    logger setup, both installs, the write of the environment variable,
    [dotnet.info] and the project object, in that order. *)
Theorem phases_come_after_the_preparation
    (ext : External) (argv : list string) (args : Namespace) (env : Environ)
    (tfms chs : list string) (pre post : list Event) (e : Event) :
  parse_args ext argv = Return args →
  get_target_framework_monikers ext (frameworks args) = Return tfms →
  comprehension (get_channel ext) tfms = Return chs →
  let r := __main ext argv (start env) in
  calls r.2 = pre ++ e :: post →
  is_phase e = true →
  preparation args tfms chs `prefix_of` pre.
Proof.
  intros Hparse Htfms Hch r Hcalls He.
  destruct (main_follows ext argv args tfms chs Hparse Htfms Hch (start env))
    as (proj & new & E & [k P] & _).
  fold r in E. unfold calls in Hcalls. rewrite E in Hcalls. simpl in Hcalls.
  rewrite Hcalls in P. unfold script in P. cbv zeta in P.
  rewrite <- !app_assoc in P. simpl in P.
  eapply (prefix_before is_phase); [exact P | | exact He].
  unfold preparation. repeat constructor.
Qed.

Lemma filter_prefix (p : Event → bool) (l1 l2 : list Event) :
  l1 `prefix_of` l2 → List.filter p l1 `prefix_of` List.filter p l2.
Proof. intros [k ->]. rewrite List.filter_app. by eexists. Qed.

Lemma prefix_with_last (l a : list Event) (x : Event) (p : Event → bool) :
  l `prefix_of` a ++ [x] → p x = true → Forall (λ y, p y = false) a →
  List.filter p l ≠ [] → l = a ++ [x].
Proof.
  intros [k E] Hx Fa Hl.
  destruct k as [|y k _] using rev_ind; [by rewrite app_nil_r in E|].
  exfalso. rewrite app_assoc in E. apply app_inj_tail in E as [-> _].
  apply Hl. apply Forall_app in Fa as [Fl _].
  clear -Fl. induction Fl as [|z l Hz _ IH]; [done|]. simpl. by rewrite Hz.
Qed.

Lemma filter_runs (p : Event → bool) proj conf v args (b : bool) fs :
  (∀ f, p (ERun proj conf f v args) = b) →
  List.filter p (map (λ f, ERun proj conf f v args) fs)
  = if b then map (λ f, ERun proj conf f v args) fs else [].
Proof.
  intros Hp. induction fs as [|f fs IH]; simpl; [by destruct b|].
  rewrite Hp, IH. by destruct b.
Qed.

Lemma script_builds args tfms chs proj :
  List.filter is_build (script args tfms chs proj)
  = if run_only args then []
    else [EBuild proj (configuration args) tfms (incremental args)
            (negb (quiet args))].
Proof.
  unfold script. cbv zeta. rewrite !List.filter_app.
  destruct (run_only args), (build_only args); simpl;
    rewrite ?List.filter_app, ?(filter_runs is_build _ _ _ _ false) by done;
    done.
Qed.

Lemma script_runs args tfms chs proj :
  List.filter is_run (script args tfms chs proj)
  = if build_only args then []
    else map (λ f, ERun proj (configuration args) f (negb (quiet args)) args)
           (frameworks args).
Proof.
  unfold script. cbv zeta. rewrite !List.filter_app.
  destruct (run_only args), (build_only args); simpl;
    rewrite ?List.filter_app, ?(filter_runs is_run _ _ _ _ true) by done;
    simpl; by rewrite ?app_nil_r.
Qed.

Lemma script_reports args tfms chs proj :
  List.filter is_report (script args tfms chs proj)
  = if build_only args then []
    else [ERunScripts args (negb (quiet args)) proj].
Proof.
  unfold script. cbv zeta. rewrite !List.filter_app.
  destruct (run_only args), (build_only args); simpl;
    rewrite ?List.filter_app, ?(filter_runs is_report _ _ _ _ false) by done;
    done.
Qed.

Lemma prefix_of_if (b : bool) (l X : list Event) :
  l `prefix_of` (if b then [] else X) → l `prefix_of` X.
Proof.
  destruct b; [|done]. intros H. apply prefix_nil_inv in H as ->.
  apply prefix_nil.
Qed.

(** X5.  Whatever the called modules do, an invocation builds at most
    once, runs an initial segment of the frameworks, in the order given,
    reports at most once, and when it makes the report call it has run
    every framework. *)
Theorem one_build_then_runs_in_order_then_one_report
    (ext : External) (argv : list string) (args : Namespace) (env : Environ)
    (tfms chs : list string) :
  parse_args ext argv = Return args →
  get_target_framework_monikers ext (frameworks args) = Return tfms →
  comprehension (get_channel ext) tfms = Return chs →
  let r := __main ext argv (start env) in
  let v := negb (quiet args) in
  ∃ proj,
    calls_of is_build r.2
      `prefix_of` [EBuild proj (configuration args) tfms (incremental args) v] ∧
    calls_of is_run r.2
      `prefix_of` map (λ f, ERun proj (configuration args) f v args)
                    (frameworks args) ∧
    calls_of is_report r.2 `prefix_of` [ERunScripts args v proj] ∧
    (calls_of is_report r.2 ≠ [] →
     calls_of is_run r.2
     = map (λ f, ERun proj (configuration args) f v args) (frameworks args)).
Proof.
  intros Hparse Htfms Hch r v. subst v.
  destruct (main_follows ext argv args tfms chs Hparse Htfms Hch (start env))
    as (proj & new & E & P & _).
  fold r in E. exists proj.
  assert (calls r.2 `prefix_of` script args tfms chs proj) as Hp
    by (unfold calls; by rewrite E).
  unfold calls_of. split; [|split; [|split]].
  - apply (filter_prefix is_build) in Hp. rewrite script_builds in Hp.
    by apply prefix_of_if in Hp.
  - apply (filter_prefix is_run) in Hp. rewrite script_runs in Hp.
    by apply prefix_of_if in Hp.
  - apply (filter_prefix is_report) in Hp. rewrite script_reports in Hp.
    by apply prefix_of_if in Hp.
  - intros Hrep. destruct (build_only args) eqn:Hbo.
    + exfalso. apply Hrep.
      apply (filter_prefix is_report) in Hp. rewrite script_reports, Hbo in Hp.
      by apply prefix_nil_inv in Hp.
    + pose proof (script_runs args tfms chs proj) as Hruns.
      rewrite Hbo in Hruns. rewrite <- Hruns. f_equal.
      unfold script in *. cbv zeta in *. rewrite Hbo in *.
      rewrite !app_assoc in Hp. rewrite !app_assoc.
      apply (prefix_with_last _ _ _ is_report) in Hp; [done | done | | exact Hrep].
      apply Forall_app; split; [apply Forall_app; split|].
      * unfold preparation. repeat constructor.
      * destruct (run_only args); repeat constructor.
      * apply Forall_forall. intros x Hx.
        apply list_elem_of_In, in_map_iff in Hx as (f & <- & _). done.
Qed.

(** X6.  When the runtime check raises, or it returns and the command
    line does not parse, [__main] ends with that exception and the runtime
    check is the only call made: no loggers, no install. *)
Theorem unsupported_runtime_or_bad_command_line_stops_at_once
    (ext : External) (argv : list string) (env : Environ) (e : Exn) :
  let r := __main ext argv (start env) in
  ((validate_supported_runtime ext (start env)).1 = Raise e →
   r.1 = Raise e ∧ calls r.2 = [EValidateSupportedRuntime]) ∧
  (succeeds (validate_supported_runtime ext) →
   parse_args ext argv = Raise e →
   r.1 = Raise e ∧ calls r.2 = [EValidateSupportedRuntime]).
Proof.
  intros r. subst r. unfold __main, __process_arguments. split.
  - intros Hv. rewrite bind_call.
    destruct (validate_supported_runtime ext (start env)) as [o env1].
    simpl in Hv. subst o. done.
  - intros Hv Hparse. step_call Hv. rewrite bind_lift, Hparse. done.
Qed.

(** X7.  When a framework has no moniker, or a moniker has no channel,
    [__main] ends with the exception of the lookup before any install:
    the calls are the runtime check and the logger setup, and for the
    channel the log line of [init_tools]. *)
Theorem unknown_framework_stops_before_any_install
    (ext : External) (argv : list string) (args : Namespace) (env : Environ)
    (e : Exn) :
  parse_args ext argv = Return args →
  missing_submission_name args = false →
  succeeds (validate_supported_runtime ext) →
  succeeds (setup_loggers ext (negb (quiet args))) →
  let r := __main ext argv (start env) in
  (get_target_framework_monikers ext (frameworks args) = Raise e →
   r.1 = Raise e ∧
   calls r.2 = [EValidateSupportedRuntime; ESetupLoggers (negb (quiet args))]) ∧
  (∀ tfms,
     get_target_framework_monikers ext (frameworks args) = Return tfms →
     comprehension (get_channel ext) tfms = Raise e →
     r.1 = Raise e ∧
     calls r.2 = [EValidateSupportedRuntime; ESetupLoggers (negb (quiet args));
                  ELogInfo "Installing tools."]).
Proof.
  intros Hparse Hvalid Hv Hl r. subst r. unfold __main, __process_arguments.
  step_call Hv. step_lift Hparse. step_call Hl.
  unfold missing_submission_name in Hvalid. rewrite Hvalid. split.
  - intros Htfms. rewrite bind_lift, Htfms. done.
  - intros tfms Htfms Hch. step_lift Htfms. unfold init_tools.
    rewrite (bind_unfold (logger_info _ ≫= _)).
    erewrite (bind_Return (logger_info _)) by reflexivity. cbv beta.
    rewrite bind_lift, Hch. done.
Qed.

Lemma comprehension_raises {A B} (f : A → Outcome B) pre x post ys e :
  comprehension f pre = Return ys → f x = Raise e →
  comprehension f (pre ++ x :: post) = Raise e.
Proof.
  revert ys. induction pre as [|y pre IH]; intros ys Hpre Hx; simpl.
  - by rewrite Hx.
  - simpl in Hpre. destruct (f y) as [b|e']; [|done].
    destruct (comprehension f pre) as [bs|e'] eqn:E; [|done].
    by rewrite (IH bs).
Qed.

(** X8.  [init_tools] looks up the channels in order and stops at the
    first moniker without one: it raises that lookup's exception, has
    only written its log line, and leaves the environment as it was. *)
Theorem init_tools_stops_at_the_first_moniker_without_channel
    (ext : External) (a : string) (v : option string)
    (pre post chs : list string) (t : string) (verbose : bool) (e : Exn)
    (w : World) :
  comprehension (get_channel ext) pre = Return chs →
  get_channel ext t = Raise e →
  let r := init_tools ext a v (pre ++ t :: post) verbose w in
  r.1 = Raise e ∧
  calls r.2 = calls w ++ [ELogInfo "Installing tools."] ∧
  environ r.2 = environ w.
Proof.
  intros Hpre Ht r. subst r. unfold init_tools.
  erewrite bind_Return by reflexivity. cbv beta.
  rewrite bind_lift, (comprehension_raises _ _ _ _ _ _ Hpre Ht). simpl.
  split; [done|]. split; [|done]. unfold calls. simpl. by rewrite fmap_app.
Qed.

(** X9.  In [init_tools] an install that raises ends the function with
    its exception: when [dotnet.install] raises, [benchview.install] is
    not called; when [benchview.install] raises, it was called after the
    toolchain install returned. *)
Theorem init_tools_stops_at_the_install_that_raises
    (ext : External) (a : string) (v : option string) (tfms chs : list string)
    (verbose : bool) (e : Exn) (w : World) :
  comprehension (get_channel ext) tfms = Return chs →
  let r := init_tools ext a v tfms verbose w in
  ((∀ w', (dotnet_install ext a chs v verbose w').1 = Raise e) →
   r.1 = Raise e ∧
   calls r.2 = calls w ++ [ELogInfo "Installing tools.";
                           EDotnetInstall a chs v verbose]) ∧
  (succeeds (dotnet_install ext a chs v verbose) →
   (∀ w', (benchview_install ext w').1 = Raise e) →
   r.1 = Raise e ∧
   calls r.2 = calls w ++ [ELogInfo "Installing tools.";
                           EDotnetInstall a chs v verbose; EBenchviewInstall]).
Proof.
  intros Hch r. subst r. unfold init_tools.
  erewrite bind_Return by reflexivity. cbv beta. step_lift Hch. split.
  - intros Hd. rewrite bind_call.
    match goal with
    | |- context [ dotnet_install ext a chs v verbose ?w' ] =>
        specialize (Hd w'); destruct (dotnet_install ext a chs v verbose w')
          as [o env1]
    end.
    simpl in Hd. subst o. simpl. split; [done|].
    unfold calls. simpl. by rewrite !fmap_app, <- app_assoc.
  - intros Hd Hb. step_call Hd. rewrite bind_call.
    match goal with
    | |- context [ benchview_install ext ?w' ] =>
        specialize (Hb w'); destruct (benchview_install ext w') as [o env1]
    end.
    simpl in Hb. subst o. simpl. split; [done|].
    unfold calls. simpl. by rewrite !fmap_app, <- !app_assoc.
Qed.

Lemma build_and_run_build_raises ext args tfms proj w e :
  run_only args = false →
  (∀ w', (micro_benchmarks_build ext proj (configuration args) tfms
            (incremental args) (negb (quiet args)) w').1 = Raise e) →
  ∃ env',
    build_and_run ext args tfms proj w
    = (Raise e,
       {| trace := trace w ++ [(EBuild proj (configuration args) tfms
                                  (incremental args) (negb (quiet args)),
                                environ w)];
          environ := env' |}).
Proof.
  intros Hro Hb. unfold build_and_run. cbv zeta. rewrite Hro. cbn [negb].
  rewrite bind_unfold, bind_call. specialize (Hb w).
  destruct (micro_benchmarks_build ext _ _ _ _ _ w) as [o env1].
  simpl in Hb. subst o. by eexists.
Qed.

(** X10.  A build that raises ends the invocation with its exception,
    right after the build call: no run and no report call is made. *)
Theorem failed_build_ends_the_invocation
    (ext : External) (argv : list string) (args : Namespace) (env : Environ)
    (tfms chs : list string) (e : Exn) :
  parse_args ext argv = Return args →
  run_only args = false →
  missing_submission_name args = false →
  get_target_framework_monikers ext (frameworks args) = Return tfms →
  comprehension (get_channel ext) tfms = Return chs →
  provisions ext →
  (∀ proj w, (micro_benchmarks_build ext proj (configuration args) tfms
                (incremental args) (negb (quiet args)) w).1 = Raise e) →
  let r := __main ext argv (start env) in
  r.1 = Raise e ∧
  (∃ proj,
     calls r.2
     = preparation args tfms chs
       ++ [EBuild proj (configuration args) tfms (incremental args)
             (negb (quiet args))]) ∧
  count is_run r.2 = 0%nat ∧
  count is_report r.2 = 0%nat.
Proof.
  intros Hparse Hro Hvalid Htfms Hch Hp Hb r.
  destruct (main_provisioned ext argv args env tfms chs Hparse Hvalid Htfms Hch Hp)
    as (proj & w1 & Emain & Ecalls).
  destruct (build_and_run_build_raises ext args tfms proj w1 e Hro (Hb proj))
    as (env' & E).
  subst r. rewrite Emain, E. simpl.
  assert (calls {| trace := trace w1 ++ [(EBuild proj (configuration args) tfms
                                            (incremental args) (negb (quiet args)),
                                          environ w1)];
                   environ := env' |}
          = preparation args tfms chs
            ++ [EBuild proj (configuration args) tfms (incremental args)
                  (negb (quiet args))]) as Ec
    by (by rewrite calls_app, Ecalls).
  split; [done|]. split; [by exists proj|].
  unfold count, calls_of. rewrite Ec. done.
Qed.

(** X11.  A report call that raises ends the invocation with its
    exception although every framework was run: the calls are the whole
    script. *)
Theorem failed_report_ends_the_invocation_after_every_run
    (ext : External) (argv : list string) (args : Namespace) (env : Environ)
    (tfms chs : list string) (e : Exn) :
  parse_args ext argv = Return args →
  build_only args = false →
  missing_submission_name args = false →
  get_target_framework_monikers ext (frameworks args) = Return tfms →
  comprehension (get_channel ext) tfms = Return chs →
  prepares ext →
  (∀ proj conf f v a, succeeds (micro_benchmarks_run ext proj conf f v a)) →
  (∀ proj w, (benchview_run_scripts ext args (negb (quiet args)) proj w).1
             = Raise e) →
  let r := __main ext argv (start env) in
  r.1 = Raise e ∧ ∃ proj, calls r.2 = script args tfms chs proj.
Proof.
  intros Hparse Hbo Hvalid Htfms Hch Hp Hrun Hrep r.
  destruct (main_prepared ext argv args env tfms chs Hparse Hvalid Htfms Hch Hp)
    as (proj & w1 & Emain & Ecalls).
  subst r. rewrite Emain. unfold run_phase. cbv zeta. rewrite Hbo. cbn [negb].
  destruct (for_each_call_returns
              (λ f, ERun proj (configuration args) f (negb (quiet args)) args)
              (λ f, micro_benchmarks_run ext proj (configuration args) f
                      (negb (quiet args)) args)
              (frameworks args) w1) as (new & env1 & E & Hnew);
    [intros; apply Hrun|].
  rewrite (bind_Return _ _ _ _ _ E). cbv beta. rewrite bind_call.
  match goal with
  | |- context [ benchview_run_scripts ext args _ proj ?w' ] =>
      specialize (Hrep proj w');
      destruct (benchview_run_scripts ext args (negb (quiet args)) proj w')
        as [o env2]
  end.
  simpl in Hrep. subst o. simpl. split; [done|]. exists proj.
  unfold calls in *. simpl. rewrite !fmap_app, Ecalls, Hnew.
  unfold script. cbv zeta. rewrite Hbo. simpl. by rewrite <- !app_assoc.
Qed.

Lemma keeps_ret {A} (a : A) : keeps_environ (mret a).
Proof. done. Qed.

Lemma keeps_raise {A} e : keeps_environ (@raise A e).
Proof. done. Qed.

Lemma keeps_lift {A} (o : Outcome A) : keeps_environ (lift o).
Proof. done. Qed.

Lemma keeps_logger_info msg : keeps_environ (logger_info msg).
Proof. done. Qed.

Lemma keeps_call {A} e (c : Collab A) : neutral c → keeps_environ (call e c).
Proof.
  intros Hc w. unfold call. specialize (Hc w). by destruct (c w) as [o env'].
Qed.

Lemma keeps_bind {A B} (m : M A) (k : A → M B) :
  keeps_environ m → (∀ a, keeps_environ (k a)) → keeps_environ (m ≫= k).
Proof.
  intros Hm Hk w. unfold mbind, M_bind. specialize (Hm w).
  destruct (m w) as [[a|e] w1]; simpl in *; [|done]. by rewrite Hk.
Qed.

Lemma keeps_for_each {A B} xs (body : A → M B) :
  (∀ x, keeps_environ (body x)) → keeps_environ (for_each xs body).
Proof.
  intros Hb. induction xs as [|x xs IH]; simpl; [done|].
  apply keeps_bind; [apply Hb | intros _; apply IH].
Qed.

Ltac keeps_auto :=
  repeat first
    [ apply keeps_ret | apply keeps_raise | apply keeps_lift
    | apply keeps_logger_info
    | apply keeps_for_each; intros ?
    | apply keeps_bind; [|intros ?]
    | match goal with
      | |- keeps_environ (if ?b then _ else _) => destruct b
      end ].

(** X12.  When the called modules leave the environment as they find
    it, an invocation ends either in the environment it started in, and
    then with an exception, or in that environment with
    [PYTHON_SCRIPT_TARGET_FRAMEWORKS] set to the joined monikers and
    nothing else changed. *)
Theorem main_sets_one_variable_and_no_other
    (ext : External) (argv : list string) (env : Environ) :
  leaves_environ ext →
  let r := __main ext argv (start env) in
  (environ r.2 = env ∧ returned r.1 = false) ∨
  (∃ args tfms,
     parse_args ext argv = Return args ∧
     get_target_framework_monikers ext (frameworks args) = Return tfms ∧
     environ r.2 = <[PYTHON_SCRIPT_TARGET_FRAMEWORKS := join ";" tfms]> env).
Proof.
  intros Hn r. subst r. unfold __main, __process_arguments.
  rewrite bind_call.
  pose proof (neutral_runtime ext Hn (start env)) as H0.
  destruct (validate_supported_runtime ext (start env)) as [[a|ex] env1];
    simpl in H0; subst env1; [|by left].
  rewrite bind_lift. destruct (parse_args ext argv) as [args|ex] eqn:Hparse;
    [|by left].
  cbv zeta. rewrite bind_call.
  match goal with
  | |- context [ setup_loggers ext ?v ?w ] =>
      pose proof (neutral_loggers ext Hn v w) as H1;
      destruct (setup_loggers ext v w) as [[a1|ex] env2]
  end; simpl in H1; subst env2; [|by left].
  destruct (generate_benchview_data args && _); [by left|].
  rewrite bind_lift.
  destruct (get_target_framework_monikers ext _) as [tfms|ex] eqn:Htfms;
    [|by left].
  rewrite bind_unfold.
  match goal with
  | |- context [ init_tools ?e ?a ?ver ?t ?b ?w ] =>
      assert (keeps_environ (init_tools e a ver t b)) as Hi
        by (unfold init_tools; keeps_auto; apply keeps_call; apply Hn);
      specialize (Hi w);
      destruct (init_tools e a ver t b w) as [[[]|ex] w3]
  end; simpl in Hi; [|left; simpl; by rewrite Hi].
  erewrite bind_Return by reflexivity. cbv beta.
  right. exists args, tfms. split; [done|]. split; [done|].
  match goal with
  | |- environ (?m ?w).2 = _ =>
      assert (keeps_environ m) as Hk
        by (keeps_auto; apply keeps_call; apply Hn);
      rewrite (Hk w)
  end.
  simpl. by rewrite Hi.
Qed.

(** ** The joined monikers and the canonical timestamps *)

Lemma contains_semicolon_cons c s :
  contains ";" (String c s)
  = (if ascii_dec ";" c then true else false) || contains ";" s.
Proof.
  cbn [contains String.prefix]. destruct (ascii_dec ";" c); [|done].
  by destruct s.
Qed.

Lemma no_semicolon_tail c s :
  no_semicolon (String c s) → c ≠ ";"%char ∧ no_semicolon s.
Proof.
  unfold no_semicolon. rewrite contains_semicolon_cons.
  destruct (ascii_dec ";" c) as [<- | Hc]; [done|].
  intros H. split; [congruence | exact H].
Qed.

Lemma semicolon_found (x t : string) : ¬ no_semicolon (x +:+ String ";" t).
Proof.
  unfold no_semicolon. induction x as [|c x IH].
  - change (EmptyString +:+ String ";" t) with (String ";" t).
    rewrite contains_semicolon_cons. by destruct (ascii_dec ";" ";").
  - change (String c x +:+ String ";" t) with (String c (x +:+ String ";" t)).
    rewrite contains_semicolon_cons. intros H.
    apply orb_false_iff in H as [_ H]. by apply IH.
Qed.

Lemma split_at_semicolon (x y s t : string) :
  no_semicolon x → no_semicolon y →
  x +:+ String ";" s = y +:+ String ";" t → x = y ∧ s = t.
Proof.
  revert y. induction x as [|c x IH]; intros [|d y] Hx Hy E; simpl in E.
  - by injection E.
  - injection E as <- _. by apply no_semicolon_tail in Hy as [? _].
  - injection E as -> _. by apply no_semicolon_tail in Hx as [? _].
  - injection E as -> E. apply no_semicolon_tail in Hx as [_ Hx].
    apply no_semicolon_tail in Hy as [_ Hy].
    destruct (IH y Hx Hy E) as [-> ->]. done.
Qed.

Lemma join_cons x y l :
  join ";" (x :: y :: l) = x +:+ String ";" (join ";" (y :: l)).
Proof. reflexivity. Qed.

(** X13.  The value written to the environment determines the monikers:
    two non-empty lists of monikers without semicolons that join to the
    same string are the same list. *)
Theorem joined_monikers_determine_the_list (l1 l2 : list string) :
  l1 ≠ [] → l2 ≠ [] →
  Forall no_semicolon l1 → Forall no_semicolon l2 →
  join ";" l1 = join ";" l2 → l1 = l2.
Proof.
  revert l2. induction l1 as [|x l1 IH]; intros l2 H1 H2 F1 F2 E; [done|].
  destruct l2 as [|y l2]; [done|].
  apply Forall_cons in F1 as [Hx F1]. apply Forall_cons in F2 as [Hy F2].
  destruct l1 as [|x2 l1], l2 as [|y2 l2].
  - simpl in E. by subst.
  - exfalso. rewrite join_cons in E. simpl in E. subst x.
    by apply semicolon_found in Hx.
  - exfalso. rewrite join_cons in E. simpl in E. subst y.
    by apply semicolon_found in Hy.
  - rewrite !join_cons in E.
    apply split_at_semicolon in E as [-> E]; [|done|done].
    f_equal. by apply IH.
Qed.

Lemma match_classes_split ks s txt rest :
  match_classes ks s = Some (txt, rest) →
  s = txt ++ rest ∧ length txt = length ks.
Proof.
  revert s txt rest. induction ks as [|k ks IH]; intros s txt rest; simpl.
  - by intros [= <- <-].
  - destruct s as [|c s]; [done|]. destruct (in_class k c); [|done].
    destruct (match_classes ks s) as [[t r]|] eqn:E; [|done].
    intros [= <- <-]. destruct (IH _ _ _ E) as [-> <-]. done.
Qed.

Lemma in_try_alternatives d alts items s r :
  r ∈ try_alternatives d alts items s →
  ∃ ks txt rs found rest,
    ks ∈ alts ∧ match_classes ks s = Some (txt, rs) ∧
    (found, rest) ∈ match_items items rs ∧ r = ((d, txt) :: found, rest).
Proof.
  unfold try_alternatives. intros H.
  apply list_elem_of_bind in H as ([txt rs] & H & Halt).
  apply list_elem_of_omap in Halt as (ks & Hks & Hm).
  apply list_elem_of_bind in H as ([found rest] & H & Hin).
  apply list_elem_of_singleton in H as ->.
  by exists ks, txt, rs, found, rest.
Qed.

(** A field written out in full before its separator is taken whole, or
    the match fails. *)
Lemma field_results d alts sep items txt0 data r :
  Forall (λ ks, (length ks ≤ length txt0)%nat) alts →
  Forall (λ c, in_class (Lit sep) c = false) txt0 →
  r ∈ try_alternatives d alts (Literal sep :: items) (txt0 ++ sep :: data) →
  ∃ found rest,
    r = ((d, txt0) :: found, rest) ∧ (found, rest) ∈ match_items items data.
Proof.
  intros Hlen Hsep Hr.
  apply in_try_alternatives in Hr
    as (ks & txt & rs & found & rest & Hks & Hm & Hin & ->).
  apply match_classes_split in Hm as [Hs Hl].
  rewrite Forall_forall in Hlen. specialize (Hlen ks Hks).
  exists found, rest.
  destruct (decide (length txt = length txt0)) as [Heq | Hne].
  - apply app_inj_1 in Hs as [-> <-]; [|done]. split; [done|].
    simpl in Hin. by destruct (lower sep =? lower sep)%N; [|apply elem_of_nil in Hin].
  - exfalso.
    assert (txt = take (length txt) txt0 ∧
            rs = drop (length txt) txt0 ++ sep :: data) as [_ ->].
    { rewrite <- (take_drop (length txt) txt0), <- app_assoc in Hs.
      apply app_inj_1 in Hs as [H1 H2]; [by split|]. rewrite length_take. lia. }
    destruct (drop (length txt) txt0) as [|c l] eqn:Hd.
    { apply (f_equal length) in Hd. rewrite length_drop in Hd. simpl in Hd. lia. }
    assert (c ∈ txt0) as Hc.
    { rewrite <- (take_drop (length txt) txt0), Hd. apply elem_of_app. right.
      apply list_elem_of_here. }
    rewrite Forall_forall in Hsep. specialize (Hsep c Hc). simpl in Hsep.
    simpl in Hin. rewrite Hsep in Hin. by apply elem_of_nil in Hin.
Qed.

Lemma digit_is_no_separator k :
  0 ≤ k ≤ 9 →
  in_class (Lit "-") (digit k) = false ∧ in_class (Lit "T") (digit k) = false ∧
  in_class (Lit ":") (digit k) = false ∧ in_class (Lit "Z") (digit k) = false.
Proof.
  intros Hk.
  pose proof (check_range
    (λ k, negb (in_class (Lit "-") (digit k)) && negb (in_class (Lit "T") (digit k))
          && negb (in_class (Lit ":") (digit k)) && negb (in_class (Lit "Z") (digit k)))
    0 9 eq_refl k Hk) as H.
  cbv beta in H. repeat (apply andb_true_iff in H as [H ?]).
  repeat split; by apply negb_true_iff.
Qed.

Lemma two_digits_no_separator n :
  0 ≤ n ≤ 99 →
  ∀ sep, sep ∈ ["-"; "T"; ":"; "Z"]%char →
  Forall (λ c, in_class (Lit sep) c = false) (two_digits n).
Proof.
  intros Hn sep Hsep. unfold two_digits.
  destruct (digit_is_no_separator (n / 10)) as (A1 & A2 & A3 & A4);
    [Z.div_mod_to_equations; lia|].
  destruct (digit_is_no_separator (n mod 10)) as (B1 & B2 & B3 & B4);
    [Z.div_mod_to_equations; lia|].
  repeat (apply elem_of_cons in Hsep as [-> | Hsep]);
    [..|by apply elem_of_nil in Hsep]; by repeat constructor.
Qed.

Lemma four_digits_no_separator n :
  0 ≤ n ≤ 9999 →
  Forall (λ c, in_class (Lit "-") c = false) (four_digits n).
Proof.
  intros Hn. unfold four_digits.
  repeat constructor; apply digit_is_no_separator;
    Z.div_mod_to_equations; lia.
Qed.

(** Whatever way the format matches a timestamp written the canonical
    way, it takes the six fields as written and the whole string. *)
Lemma canonical_match_is_unique t r :
  printable t →
  r ∈ match_items
        (format_items (list_ascii_of_string "%Y-%m-%dT%H:%M:%SZ"))
        (list_ascii_of_string (rfc3339_utc t)) →
  r = ([("Y", four_digits (year t)); ("m", two_digits (month t));
        ("d", two_digits (day t)); ("H", two_digits (hour t));
        ("M", two_digits (minute t)); ("S", two_digits (second t))]%char, []).
Proof.
  intros (Hy & Hm & Hd & HH & HM & HS) Hr.
  unfold rfc3339_utc in Hr. rewrite list_ascii_of_string_of_list_ascii in Hr.
  match type of Hr with
  | context [ format_items ?f ] =>
      let items := eval vm_compute in (format_items f) in
      change (format_items f) with items in Hr
  end.
  change (match_items (Directive "Y" :: ?i) ?s)
    with (try_alternatives "Y" [[Digit; Digit; Digit; Digit]] i s) in Hr.
  apply field_results in Hr as (f1 & r1 & -> & Hr);
    [|repeat constructor | by apply four_digits_no_separator].
  change (match_items (Directive "m" :: ?i) ?s)
    with (try_alternatives "m"
            [[Lit "1"; Range "0" "2"]; [Lit "0"; Range "1" "9"]; [Range "1" "9"]]
            i s) in Hr.
  apply field_results in Hr as (f2 & r2 & [= -> ->] & Hr);
    [|repeat constructor; simpl; lia
     |apply two_digits_no_separator; [done | repeat first [apply list_elem_of_here | apply list_elem_of_further]]].
  change (match_items (Directive "d" :: ?i) ?s)
    with (try_alternatives "d"
            [[Lit "3"; Range "0" "1"]; [Range "1" "2"; Digit];
             [Lit "0"; Range "1" "9"]; [Range "1" "9"]; [Lit " "; Range "1" "9"]]
            i s) in Hr.
  apply field_results in Hr as (f3 & r3 & [= -> ->] & Hr);
    [|repeat constructor; simpl; lia
     |apply two_digits_no_separator; [done | repeat first [apply list_elem_of_here | apply list_elem_of_further]]].
  change (match_items (Directive "H" :: ?i) ?s)
    with (try_alternatives "H"
            [[Lit "2"; Range "0" "3"]; [Range "0" "1"; Digit]; [Digit]] i s) in Hr.
  apply field_results in Hr as (f4 & r4 & [= -> ->] & Hr);
    [|repeat constructor; simpl; lia
     |apply two_digits_no_separator; [done | repeat first [apply list_elem_of_here | apply list_elem_of_further]]].
  change (match_items (Directive "M" :: ?i) ?s)
    with (try_alternatives "M" [[Range "0" "5"; Digit]; [Digit]] i s) in Hr.
  apply field_results in Hr as (f5 & r5 & [= -> ->] & Hr);
    [|repeat constructor; simpl; lia
     |apply two_digits_no_separator; [done | repeat first [apply list_elem_of_here | apply list_elem_of_further]]].
  change (match_items (Directive "S" :: ?i) ?s)
    with (try_alternatives "S"
            [[Lit "6"; Range "0" "1"]; [Range "0" "5"; Digit]; [Digit]] i s) in Hr.
  apply field_results in Hr as (f6 & r6 & [= -> ->] & Hr);
    [|repeat constructor; simpl; lia
     |apply two_digits_no_separator; [done | repeat first [apply list_elem_of_here | apply list_elem_of_further]]].
  simpl in Hr. apply list_elem_of_singleton in Hr as [= -> ->]. done.
Qed.

(** X14.  A timestamp written the canonical way, [YYYY-MM-DDTHH:MM:SSZ]
    with every field zero-padded, is accepted by the converter exactly
    when its date and time exist. *)
Theorem canonical_timestamp_is_accepted_exactly_when_it_exists (t : datetime) :
  printable t →
  returned (__is_valid_datetime (rfc3339_utc t)) = valid_datetime t.
Proof.
  intros Hp. destruct (valid_datetime t) eqn:Hv.
  { unfold __is_valid_datetime. by rewrite strptime_rfc3339_utc. }
  assert (returned (strptime (rfc3339_utc t) "%Y-%m-%dT%H:%M:%SZ") = false) as H.
  { pose proof (canonical_match_is_unique t) as Hu.
    unfold strptime.
    destruct (negb _); [done|].
    destruct (match_items _ _) as [|[found rest] l]; [done|].
    specialize (Hu (found, rest) Hp (list_elem_of_here _ _)).
    injection Hu as -> ->.
    destruct Hp as (Hy & Hm & Hd & HH & HM & HS).
    cbn -[int_of_text four_digits two_digits valid_datetime].
    rewrite int_of_four_digits by lia. rewrite !int_of_two_digits by lia.
    replace {| year := year t; month := month t; day := day t; hour := hour t;
               minute := minute t; second := second t |} with t
      by (by destruct t).
    by rewrite Hv. }
  unfold __is_valid_datetime.
  destruct (strptime _ _) as [t'|e]; [done|]. by destruct e.
Qed.

(** ** The further properties at work *)

Lemma lab_cooperative ns channel_of :
  cooperative (lab ns channel_of (λ _, Return VNone)).
Proof. repeat split; intros; apply quietly_succeeds. Qed.

Lemma lab_leaves_environ ns channel_of run_result :
  leaves_environ (lab ns channel_of run_result).
Proof. by split. Qed.

Lemma calls_follow_the_script_witness :
  let args := lab_args ["net6.0"; "net7.0"] false false false None in
  let r := __main (lab args lab_channel net60_raises) [] (start ∅) in
  ∃ proj,
    calls r.2 `prefix_of` script args ["net6.0"; "net7.0"] ["6.0"; "7.0"] proj ∧
    (r.1 = Return tt →
     calls r.2 = script args ["net6.0"; "net7.0"] ["6.0"; "7.0"] proj).
Proof.
  intros args r.
  apply (calls_follow_the_script (lab args lab_channel net60_raises) [] args ∅
           ["net6.0"; "net7.0"] ["6.0"; "7.0"]); reflexivity.
Defined.

Lemma cooperative_run_makes_the_whole_script_witness :
  let args := lab_args ["net6.0"] false true true (Some "nightly") in
  let r := __main (lab args lab_channel (λ _, Return VNone)) [] (start ∅) in
  r.1 = Return tt ∧ ∃ proj, calls r.2 = script args ["net6.0"] ["6.0"] proj.
Proof.
  intros args r.
  apply (cooperative_run_makes_the_whole_script
           (lab args lab_channel (λ _, Return VNone)) [] args ∅
           ["net6.0"] ["6.0"]); try reflexivity.
  apply lab_cooperative.
Defined.

Lemma mode_flags_gate_their_phases_witness :
  (let args := lab_args ["net6.0"] true false true (Some "nightly") in
   let r := __main (lab args lab_channel (λ _, Return VNone)) [] (start ∅) in
   count is_run r.2 = 0%nat ∧ count is_report r.2 = 0%nat) ∧
  (let args := lab_args ["net6.0"] false true false None in
   let r := __main (lab args lab_channel (λ _, Return VNone)) [] (start ∅) in
   count is_build r.2 = 0%nat).
Proof.
  split.
  - intros args r.
    apply (proj1 (mode_flags_gate_their_phases
                    (lab args lab_channel (λ _, Return VNone)) [] args ∅ eq_refl)
             eq_refl).
  - intros args r.
    apply (proj2 (mode_flags_gate_their_phases
                    (lab args lab_channel (λ _, Return VNone)) [] args ∅ eq_refl)
             eq_refl).
Defined.

Lemma phases_come_after_the_preparation_witness :
  let args := lab_args ["net6.0"] false false false None in
  let proj := {| csproj_project := "MicroBenchmarks.csproj";
                 csproj_bin_directory := "artifacts" |} in
  preparation args ["net6.0"] ["6.0"]
    `prefix_of` preparation args ["net6.0"] ["6.0"]
                ++ [EBuild proj "Release" ["net6.0"] "yes" true].
Proof.
  intros args proj.
  apply (phases_come_after_the_preparation
           (lab args lab_channel (λ _, Return VNone)) [] args ∅
           ["net6.0"] ["6.0"]
           (preparation args ["net6.0"] ["6.0"]
            ++ [EBuild proj "Release" ["net6.0"] "yes" true])
           [ERunScripts args true proj]
           (ERun proj "Release" "net6.0" true args)); reflexivity.
Defined.

Lemma one_build_then_runs_in_order_then_one_report_witness :
  let args := lab_args ["net6.0"; "net7.0"] false false false None in
  let r := __main (lab args lab_channel net60_raises) [] (start ∅) in
  ∃ proj,
    calls_of is_build r.2
      `prefix_of` [EBuild proj "Release" ["net6.0"; "net7.0"] "yes" true] ∧
    calls_of is_run r.2
      `prefix_of` map (λ f, ERun proj "Release" f true args) ["net6.0"; "net7.0"] ∧
    calls_of is_report r.2 `prefix_of` [ERunScripts args true proj] ∧
    (calls_of is_report r.2 ≠ [] →
     calls_of is_run r.2
     = map (λ f, ERun proj "Release" f true args) ["net6.0"; "net7.0"]).
Proof.
  intros args r.
  apply (one_build_then_runs_in_order_then_one_report
           (lab args lab_channel net60_raises) [] args ∅
           ["net6.0"; "net7.0"] ["6.0"; "7.0"]); reflexivity.
Defined.

Lemma unsupported_runtime_or_bad_command_line_stops_at_once_witness :
  let args := lab_args ["net6.0"] false false false None in
  let e := ModuleError "RuntimeError" "Unsupported Python version." in
  (let r := __main (faulty_lab args BadRuntime e) [] (start ∅) in
   r.1 = Raise e ∧ calls r.2 = [EValidateSupportedRuntime]) ∧
  (let r := __main (faulty_lab args BadCommandLine (SystemExit 2))
              ["--no-such-option"] (start ∅) in
   r.1 = Raise (SystemExit 2) ∧ calls r.2 = [EValidateSupportedRuntime]).
Proof.
  intros args e. split.
  - apply (proj1 (unsupported_runtime_or_bad_command_line_stops_at_once
                    (faulty_lab args BadRuntime e) [] ∅ e)).
    reflexivity.
  - apply (proj2 (unsupported_runtime_or_bad_command_line_stops_at_once
                    (faulty_lab args BadCommandLine (SystemExit 2))
                    ["--no-such-option"] ∅ (SystemExit 2))).
    + apply quietly_succeeds.
    + reflexivity.
Defined.

Lemma unknown_framework_stops_before_any_install_witness :
  let e := ModuleError "Exception" "Unknown target framework moniker." in
  (let args := lab_args ["net48"] false false false None in
   let r := __main (faulty_lab args BadFramework e) [] (start ∅) in
   r.1 = Raise e ∧
   calls r.2 = [EValidateSupportedRuntime; ESetupLoggers true]) ∧
  (let args := lab_args ["net48"] false false false None in
   let r := __main (lab args lab_channel (λ _, Return VNone)) [] (start ∅) in
   r.1 = Raise e ∧
   calls r.2 = [EValidateSupportedRuntime; ESetupLoggers true;
                ELogInfo "Installing tools."]).
Proof.
  intros e. split.
  - intros args r.
    apply (proj1 (unknown_framework_stops_before_any_install
                    (faulty_lab args BadFramework e) [] args ∅ e
                    eq_refl eq_refl (quietly_succeeds _) (quietly_succeeds _))).
    reflexivity.
  - intros args r.
    apply (proj2 (unknown_framework_stops_before_any_install
                    (lab args lab_channel (λ _, Return VNone)) [] args ∅ e
                    eq_refl eq_refl (quietly_succeeds _) (quietly_succeeds _))
             ["net48"]); reflexivity.
Defined.

Lemma init_tools_stops_at_the_first_moniker_without_channel_witness :
  let ext := lab (lab_args [] false false false None) lab_channel
               (λ _, Return VNone) in
  let r := init_tools ext "x64" None ["net6.0"; "net48"; "net7.0"] true (start ∅) in
  r.1 = Raise (ModuleError "Exception" "Unknown target framework moniker.") ∧
  calls r.2 = [ELogInfo "Installing tools."] ∧
  environ r.2 = ∅.
Proof.
  intros ext r.
  apply (init_tools_stops_at_the_first_moniker_without_channel ext "x64" None
           ["net6.0"] ["net7.0"] ["6.0"] "net48" true
           (ModuleError "Exception" "Unknown target framework moniker.")
           (start ∅)); reflexivity.
Defined.

Lemma init_tools_stops_at_the_install_that_raises_witness :
  let args := lab_args ["net6.0"] false false false None in
  let e := ModuleError "CalledProcessError" "dotnet-install" in
  (let r := init_tools (faulty_lab args BadDotnetInstall e) "x64" None ["net6.0"]
              true (start ∅) in
   r.1 = Raise e ∧
   calls r.2 = [ELogInfo "Installing tools.";
                EDotnetInstall "x64" ["6.0"] None true]) ∧
  (let r := init_tools (faulty_lab args BadBenchviewInstall e) "x64" None
              ["net6.0"] true (start ∅) in
   r.1 = Raise e ∧
   calls r.2 = [ELogInfo "Installing tools.";
                EDotnetInstall "x64" ["6.0"] None true; EBenchviewInstall]).
Proof.
  intros args e. split.
  - apply (proj1 (init_tools_stops_at_the_install_that_raises
                    (faulty_lab args BadDotnetInstall e) "x64" None ["net6.0"]
                    ["6.0"] true e (start ∅) eq_refl)).
    reflexivity.
  - apply (proj2 (init_tools_stops_at_the_install_that_raises
                    (faulty_lab args BadBenchviewInstall e) "x64" None ["net6.0"]
                    ["6.0"] true e (start ∅) eq_refl)).
    + apply quietly_succeeds.
    + reflexivity.
Defined.

Lemma failed_build_ends_the_invocation_witness :
  let args := lab_args ["net6.0"] false false false None in
  let e := ModuleError "CalledProcessError" "dotnet build" in
  let r := __main (faulty_lab args BadBuild e) [] (start ∅) in
  r.1 = Raise e ∧
  (∃ proj,
     calls r.2
     = preparation args ["net6.0"] ["6.0"]
       ++ [EBuild proj "Release" ["net6.0"] "yes" true]) ∧
  count is_run r.2 = 0%nat ∧
  count is_report r.2 = 0%nat.
Proof.
  intros args e r.
  apply (failed_build_ends_the_invocation (faulty_lab args BadBuild e) [] args ∅
           ["net6.0"] ["6.0"] e); try reflexivity.
  split; intros; apply quietly_succeeds.
Defined.

Lemma failed_report_ends_the_invocation_after_every_run_witness :
  let args := lab_args ["net6.0"; "net7.0"] false false true (Some "nightly") in
  let e := ModuleError "CalledProcessError" "submission.py" in
  let r := __main (faulty_lab args BadReport e) [] (start ∅) in
  r.1 = Raise e ∧
  ∃ proj, calls r.2 = script args ["net6.0"; "net7.0"] ["6.0"; "7.0"] proj.
Proof.
  intros args e r.
  apply (failed_report_ends_the_invocation_after_every_run
           (faulty_lab args BadReport e) [] args ∅
           ["net6.0"; "net7.0"] ["6.0"; "7.0"] e); try reflexivity.
  - split; intros; apply quietly_succeeds.
  - intros. apply quietly_succeeds.
Defined.

Lemma main_sets_one_variable_and_no_other_witness :
  let args := lab_args ["net6.0"; "net7.0"] false false false None in
  let env : Environ := {[ "PATH" := "/usr/bin" ]} in
  let r := __main (lab args lab_channel (λ _, Return VNone)) [] (start env) in
  (environ r.2 = env ∧ returned r.1 = false) ∨
  (∃ args' tfms,
     parse_args (lab args lab_channel (λ _, Return VNone)) [] = Return args' ∧
     get_target_framework_monikers (lab args lab_channel (λ _, Return VNone))
       (frameworks args') = Return tfms ∧
     environ r.2 = <[PYTHON_SCRIPT_TARGET_FRAMEWORKS := join ";" tfms]> env).
Proof.
  intros args env r.
  apply (main_sets_one_variable_and_no_other
           (lab args lab_channel (λ _, Return VNone)) [] env).
  apply lab_leaves_environ.
Defined.

Lemma joined_monikers_determine_the_list_witness :
  join ";" ["net6.0"; "net7.0"] = "net6.0;net7.0" ∧
  ["net6.0"; "net7.0"] = ["net6.0"; "net7.0"].
Proof.
  split; [reflexivity|].
  apply (joined_monikers_determine_the_list
           ["net6.0"; "net7.0"] ["net6.0"; "net7.0"]);
    try done; repeat constructor.
Defined.

Lemma canonical_timestamp_is_accepted_exactly_when_it_exists_witness :
  returned (__is_valid_datetime "2019-02-30T12:00:00Z") = false ∧
  returned (__is_valid_datetime "2020-02-29T12:00:00Z") = true.
Proof.
  split.
  - apply (canonical_timestamp_is_accepted_exactly_when_it_exists
             {| year := 2019; month := 2; day := 30;
                hour := 12; minute := 0; second := 0 |}).
    unfold printable. simpl. lia.
  - apply (canonical_timestamp_is_accepted_exactly_when_it_exists
             {| year := 2020; month := 2; day := 29;
                hour := 12; minute := 0; second := 0 |}).
    unfold printable. simpl. lia.
Defined.
